(** * Source verification and catalogue routes of the explorer web UI

    A shallow embedding of [webui/program_routes.py]: the four routes
    [programs_route], [similar_programs_route], [upload_source_route] and
    [submit_source_route], over an explicit database state and a log of
    the calls that leave the module (database queries, the compiler). *)

From Stdlib Require Import ZArith Ascii String Lia.
From Stdlib.Strings Require Import Byte.
From stdpp Require Import base decidable option list strings gmap.

Local Open Scope string_scope.
Local Open Scope Z_scope.

(** ** Python values the routes handle *)

Module Py.

(** [bytes] objects. *)
Definition bytes : Type := list Byte.byte.

#[global] Instance byte_eq_dec : EqDecision Byte.byte := Byte.byte_eq_dec.

(** [len(s)] for a [str]. *)
Definition len (s : string) : Z := Z.of_nat (String.length s).

(** [s[:n]] for a non-negative [n]. *)
Fixpoint slice_to (n : nat) (s : string) : string :=
  match n, s with
  | O, _ => EmptyString
  | S _, EmptyString => EmptyString
  | S n', String c s' => String c (slice_to n' s')
  end.

(** [s.split(sep)[0]] for a one-character separator: the text before
    the first occurrence of [sep], the whole text when there is none. *)
Fixpoint split_head (sep : ascii) (s : string) : string :=
  match s with
  | EmptyString => EmptyString
  | String c s' =>
      if Ascii.eqb c sep then EmptyString else String c (split_head sep s')
  end.

(** Membership of a character in a text, used to state facts about
    [split_head]. *)
Fixpoint contains (sep : ascii) (s : string) : bool :=
  match s with
  | EmptyString => false
  | String c s' => Ascii.eqb c sep || contains sep s'
  end.

(** *** [int(s)] for a [str]

    A [string] stands for a [str] whose code points are below 256.
    [int] skips white space on both sides, reads one optional sign and
    then decimal digits, single underscores allowed between digits,
    and refuses more digits than the interpreter's limit. *)

Definition is_space (c : ascii) : bool :=
  let n := nat_of_ascii c in
  ((9 <=? n) && (n <=? 13) || (n =? 32) || (n =? 133) || (n =? 160))%nat.

Definition digit_value (c : ascii) : option Z :=
  let n := nat_of_ascii c in
  if ((48 <=? n) && (n <=? 57))%nat then Some (Z.of_nat n - 48) else None.

Definition int_max_str_digits : Z := 4300.

Fixpoint skip_spaces (s : string) : string :=
  match s with
  | String c s' => if is_space c then skip_spaces s' else s
  | EmptyString => EmptyString
  end.

Fixpoint all_spaces (s : string) : bool :=
  match s with
  | String c s' => is_space c && all_spaces s'
  | EmptyString => true
  end.

(** The run of digits and underscores at the head of [s]: [None] on
    two underscores in a row, otherwise the value read, the number of
    digits, whether the run ended on an underscore, and what follows. *)
Fixpoint scan_digits (s : string) (prev_underscore : bool) (acc digits : Z)
  : option (Z * Z * bool * string) :=
  match s with
  | EmptyString => Some (acc, digits, prev_underscore, EmptyString)
  | String c s' =>
      if Ascii.eqb c "_" then
        if prev_underscore then None else scan_digits s' true acc digits
      else
        match digit_value c with
        | Some d => scan_digits s' false (10 * acc + d) (digits + 1)
        | None => Some (acc, digits, prev_underscore, s)
        end
  end.

Definition int (s : string) : option Z :=
  let s := skip_spaces s in
  let '(sign, s) :=
    match s with
    | String "+" r => (1, r)
    | String "-" r => (-1, r)
    | _ => (1, s)
    end in
  match s with
  | String "_" _ => None
  | _ =>
      match scan_digits s false 0 0 with
      | None => None
      | Some (v, n, ends_on_underscore, rest) =>
          if ends_on_underscore || (n =? 0) || negb (all_spaces rest)
             || (int_max_str_digits <? n)
          then None
          else Some (sign * v)
      end
  end.

(** [bool(n)] for an [int]. *)
Definition bool_of_int (n : Z) : bool := negb (n =? 0).

End Py.

(** ** Programs as [aleo_types] parses them *)

Module Aleo.

Record ProgramID : Type := {
  name : string;
  network : string
}.

(** [str(program_id)]. *)
Definition str (p : ProgramID) : string := name p +:+ "." +:+ network p.

Record Import : Type := {
  program_id : ProgramID
}.

Record Program : Type := {
  id : ProgramID;
  imports : list Import
}.

(** Modelled from the spec: a ProgramId is string-like, and a built-in
    is recognised by its id; [aleo_types] is not part of the module, so
    a [ProgramID] is compared with a text through [str]. *)
Definition differs (p : ProgramID) (text : string) : bool :=
  bool_decide (str p ≠ text).

End Aleo.

(** ** Requests and responses (Starlette) *)

(** A form field is a text or an uploaded file; the file is carried by
    the text Python prints for it inside an f-string. *)
Inductive FormValue : Type :=
  | FStr (s : string)
  | FUpload (shown : string).

(** [ImmutableMultiDict]: the items in order; [get] answers with the last
    value stored under the key, [getlist] with all of them in order. *)
Definition MultiDict (V : Type) : Type := list (string * V).

Definition getlist {V} (key : string) (d : MultiDict V) : list V :=
  omap (λ kv, if decide (kv.1 = key) then Some kv.2 else None) d.

Definition get {V} (key : string) (d : MultiDict V) : option V :=
  last (getlist key d).

Record Request : Type := {
  method : string;
  query_params : MultiDict string;
  form : MultiDict FormValue
}.

Record HTTPException : Type := {
  status_code : Z;
  detail : string
}.

Inductive Response : Type :=
  | RedirectResponse (url : string) (status : Z).

(** The status Starlette gives a [RedirectResponse] built without one. *)
Definition default_redirect : Z := 307.

(** What an f-string prints for the value of [form.get(..)]. *)
Definition fmt (v : option FormValue) : string :=
  match v with
  | None => "None"
  | Some (FStr s) => s
  | Some (FUpload shown) => shown
  end.

(** ** Calls that leave the module *)

Inductive Event : Type :=
  | db_get_program (program_id : string)
  | db_get_program_leo_source_code (program_id : string)
  | db_store_program_leo_source_code (program_id source : string)
  | db_get_program_count (no_helloworld : bool)
  | db_get_programs (start stop : Z) (no_helloworld : bool)
  | db_get_builtin_programs
  | db_get_program_feature_hash (program_id : string)
  | db_get_program_similar_count (program_id : string)
  | db_get_programs_with_feature_hash (feature_hash : string) (start stop : Z)
  | rust_compile_program (source name : string)
      (imports : list (string * string))
  | utils_out_of_sync_check.

(** The compiler either hands back bytecode or raises [RuntimeError]
    with a message. *)
Inductive Compiled : Type :=
  | Bytecode (b : Py.bytes)
  | RuntimeError (message : string).

(** ** A state-and-exception monad for the routes *)

Record World (D : Type) : Type := mkWorld {
  db : D;
  calls : list Event
}.
Arguments mkWorld {D} _ _.
Arguments db {D} _.
Arguments calls {D} _.

Inductive Outcome (A : Type) : Type :=
  | Returned (a : A)
  | Raised (e : HTTPException).
Arguments Returned {A} _.
Arguments Raised {A} _.

Definition Eff (D A : Type) : Type := World D → Outcome A * World D.

#[global] Instance eff_ret {D} : MRet (Eff D) :=
  λ A a w, (Returned a, w).

#[global] Instance eff_bind {D} : MBind (Eff D) :=
  λ A B k m w,
    match m w with
    | (Returned a, w') => k a w'
    | (Raised e, w') => (Raised e, w')
    end.

Definition raise {D A} (e : HTTPException) : Eff D A :=
  λ w, (Raised e, w).

(** A query: logged, answered from the database, state untouched. *)
Definition query {D A} (ev : Event) (q : D → A) : Eff D A :=
  λ w, (Returned (q (db w)), mkWorld (db w) (calls w ++ [ev])).

(** An update: logged, and the database replaced. *)
Definition update {D} (ev : Event) (u : D → D) : Eff D () :=
  λ w, (Returned (), mkWorld (u (db w)) (calls w ++ [ev])).

(** A call to a pure outside function: logged only. *)
Definition extern {D A} (ev : Event) (a : A) : Eff D A :=
  λ w, (Returned a, mkWorld (db w) (calls w ++ [ev])).

(** ** The database, as the routes use it *)

Class ProgramDb (D : Type) : Type := {
  get_program : D → string → option Py.bytes;
  get_program_leo_source_code : D → string → option string;
  store_program_leo_source_code : D → string → string → D
}.

Class CatalogDb (D Row : Type) : Type := {
  get_program_count : D → bool → Z;
  get_programs : D → Z → Z → bool → list Row;
  get_builtin_programs : D → list Row;
  get_program_feature_hash : D → string → option string;
  get_program_similar_count : D → string → Z;
  get_programs_with_feature_hash : D → string → Z → Z → list Row
}.

(** ** [submit_source_route] *)

Section Submit.
Context {D : Type} `{!ProgramDb D}.

(** [aleo_explorer_rust.compile_program]. *)
Variable compile_program :
  string → string → list (string * string) → Compiled.

Definition back (program_id : option FormValue) (message : string)
  : Response :=
  RedirectResponse
    ("/upload_source?id=" +:+ fmt program_id +:+ "&message=" +:+ message)
    default_redirect.

(** The loop over [zip(imports, import_programs)]: it leaves at the
    first uploaded file, and otherwise appends the pair. *)
Fixpoint collect_import_data (pairs : list (FormValue * FormValue))
    (import_data : list (string * string))
  : option (list (string * string)) :=
  match pairs with
  | [] => Some import_data
  | (FStr i, FStr p) :: rest =>
      collect_import_data rest (import_data ++ [(i, p)])
  | _ :: _ => None
  end.

(** The text kept of a compiler error. *)
Definition trim_message (e : string) : string :=
  if 255 <? Py.len e then Py.slice_to 255 e +:+ "[trimmed]" else e.

Definition submit_source_route (request : Request) : Eff D Response :=
  let form := form request in
  match get "id" form with
  | None => mret (back None "Missing program id")
  | Some (FUpload shown) =>
      mret (back (Some (FUpload shown)) "Missing program id")
  | Some (FStr program_id) =>
      let pid := Some (FStr program_id) in
      program ← query (db_get_program program_id)
                      (λ d, get_program d program_id);
      match program with
      | None => mret (back pid "Program not found")
      | Some program =>
          match get "source" form with
          | None | Some (FUpload _) | Some (FStr EmptyString) =>
              mret (back pid "Missing source code")
          | Some (FStr source) =>
              let imports := getlist "imports[]" form in
              let import_programs := getlist "import_programs[]" form in
              if negb (length imports =? length import_programs)%nat
              then mret (back pid "Invalid form data")
              else
                match collect_import_data (zip imports import_programs) []
                with
                | None => mret (back pid "Invalid form data")
                | Some import_data =>
                    let name := Py.split_head "." program_id in
                    compiled ←
                      extern (rust_compile_program source name import_data)
                             (compile_program source name import_data);
                    match compiled with
                    | RuntimeError e =>
                        mret (back pid
                                ("Failed to compile source code: "
                                 +:+ trim_message e))
                    | Bytecode compiled =>
                        if decide (program ≠ compiled)
                        then mret (back pid
                               "Program compiled from source code doesn't match program on chain")
                        else
                          update
                            (db_store_program_leo_source_code
                               program_id source)
                            (λ d, store_program_leo_source_code
                                    d program_id source);;
                          mret (RedirectResponse
                                  ("/program?id=" +:+ program_id) 303)
                    end
                end
          end
      end
  end.


(** The world after the two calls every well-formed submission makes. *)
Definition compiled_world (w : World D) (program_id source : string)
    (import_data : list (string * string)) : World D :=
  mkWorld (db w)
    (calls w ++ [db_get_program program_id;
                 rust_compile_program source
                   (Py.split_head "." program_id) import_data]).

End Submit.

(** ** [upload_source_route] *)

(** The headers every template route sends with its context. *)
Definition cache_headers : list (string * string) :=
  [("Cache-Control", "public, max-age=15")].

Record UploadContext (SyncInfo : Type) : Type := mkUploadContext {
  upload_program_id : string;
  upload_imports : list string;
  upload_import_programs : list (option string);
  upload_has_leo_source : bool;
  upload_message : option string;
  upload_source : option FormValue;
  upload_sync_info : SyncInfo
}.
Arguments mkUploadContext {SyncInfo} _ _ _ _ _ _ _.
Arguments upload_program_id {SyncInfo} _.
Arguments upload_imports {SyncInfo} _.
Arguments upload_import_programs {SyncInfo} _.
Arguments upload_has_leo_source {SyncInfo} _.
Arguments upload_message {SyncInfo} _.
Arguments upload_source {SyncInfo} _.
Arguments upload_sync_info {SyncInfo} _.

Section Upload.
Context {D SyncInfo : Type} `{!ProgramDb D}.

(** [Program.load(BytesIO(..))], the parser of [aleo_types]. *)
Variable Program_load : Py.bytes → Aleo.Program.

(** [out_of_sync_check], for the node session of the request. *)
Variable out_of_sync_check : D → SyncInfo.

(** The loop over [program.imports]: one pass over the declared
    imports, appending to the two lists of the context. *)
Fixpoint resolve_imports (todo : list Aleo.Import)
    (imports : list string) (import_programs : list (option string))
  : Eff D (list string * list (option string)) :=
  match todo with
  | [] => mret (imports, import_programs)
  | i :: rest =>
      let imports := (imports ++ [Aleo.name (Aleo.program_id i)])%list in
      if Aleo.differs (Aleo.program_id i) "credits.aleo" then
        let import_id := Aleo.str (Aleo.program_id i) in
        src ← query (db_get_program_leo_source_code import_id)
                    (λ d, get_program_leo_source_code d import_id);
        resolve_imports rest imports (import_programs ++ [src])%list
      else
        resolve_imports rest imports (import_programs ++ [None])%list
  end.

Definition upload_source_route (request : Request)
  : Eff D (UploadContext SyncInfo * list (string * string)) :=
  match get "id" (query_params request) with
  | None => raise {| status_code := 400; detail := "Missing program id" |}
  | Some program_id =>
      program ← query (db_get_program program_id)
                      (λ d, get_program d program_id);
      match program with
      | None => raise {| status_code := 404; detail := "Program not found" |}
      | Some program =>
          let source :=
            if decide (method request = "POST")
            then get "source" (form request)
            else Some (FStr EmptyString) in
          leo ← query (db_get_program_leo_source_code program_id)
                      (λ d, get_program_leo_source_code d program_id);
          '(has_leo_source, (imports, import_programs)) ←
            match leo with
            | Some _ => mret (true, ([], []))
            | None =>
                let program := Program_load program in
                lists ← resolve_imports (Aleo.imports program) [] [];
                mret (false, lists)
            end;
          let message := get "message" (query_params request) in
          sync_info ← query utils_out_of_sync_check out_of_sync_check;
          mret (mkUploadContext program_id imports import_programs
                  has_leo_source message source sync_info,
                cache_headers)
      end
  end.

(** What the pass over the imports answers for one import, and the
    calls it makes for a list of them. *)
Definition import_source (d : D) (i : Aleo.Import) : option string :=
  if Aleo.differs (Aleo.program_id i) "credits.aleo"
  then get_program_leo_source_code d (Aleo.str (Aleo.program_id i))
  else None.

Definition import_calls (todo : list Aleo.Import) : list Event :=
  omap (λ i, if Aleo.differs (Aleo.program_id i) "credits.aleo"
             then Some (db_get_program_leo_source_code
                          (Aleo.str (Aleo.program_id i)))
             else None) todo.

Definition submitted_source (request : Request) : option FormValue :=
  if decide (method request = "POST")
  then get "source" (form request)
  else Some (FStr EmptyString).

End Upload.

(** ** [programs_route] and [similar_programs_route] *)

Definition invalid_page : HTTPException :=
  {| status_code := 400; detail := "Invalid page" |}.

(** The [try] block around the page number: [None] stands for the
    [except] branch. *)
Definition requested_page (request : Request) : option Z :=
  match get "p" (query_params request) with
  | None => Some 1
  | Some page => Py.int page
  end.

(** [query_params.get("no_helloworld", False)] followed by
    [bool(int(..))] under [try], [False] in the [except] branch. *)
Definition requested_no_helloworld (request : Request) : bool :=
  match get "no_helloworld" (query_params request) with
  | None => Py.bool_of_int 0
  | Some text =>
      match Py.int text with
      | Some n => Py.bool_of_int n
      | None => false
      end
  end.

Record ProgramsContext (Row SyncInfo : Type) : Type := mkProgramsContext {
  programs_programs : list Row;
  programs_page : Z;
  programs_total_pages : Z;
  programs_no_helloworld : bool;
  programs_sync_info : SyncInfo
}.
Arguments mkProgramsContext {Row SyncInfo} _ _ _ _ _.
Arguments programs_programs {Row SyncInfo} _.
Arguments programs_page {Row SyncInfo} _.
Arguments programs_total_pages {Row SyncInfo} _.
Arguments programs_no_helloworld {Row SyncInfo} _.
Arguments programs_sync_info {Row SyncInfo} _.

Record SimilarContext (Row SyncInfo : Type) : Type := mkSimilarContext {
  similar_program_id : string;
  similar_programs : list Row;
  similar_page : Z;
  similar_total_pages : Z;
  similar_sync_info : SyncInfo
}.
Arguments mkSimilarContext {Row SyncInfo} _ _ _ _ _.
Arguments similar_program_id {Row SyncInfo} _.
Arguments similar_programs {Row SyncInfo} _.
Arguments similar_page {Row SyncInfo} _.
Arguments similar_total_pages {Row SyncInfo} _.
Arguments similar_sync_info {Row SyncInfo} _.

Section Catalogue.
Context {D Row SyncInfo : Type} `{!CatalogDb D Row}.

Variable out_of_sync_check : D → SyncInfo.

Definition programs_route (request : Request)
  : Eff D (ProgramsContext Row SyncInfo * list (string * string)) :=
  match requested_page request with
  | None => raise invalid_page
  | Some page =>
      let no_helloworld := requested_no_helloworld request in
      total_programs ← query (db_get_program_count no_helloworld)
                             (λ d, get_program_count d no_helloworld);
      let total_pages := total_programs `div` 50 + 1 in
      if (page <? 1) || (total_pages <? page) then raise invalid_page
      else
        let start := 50 * (page - 1) in
        programs ← query (db_get_programs start (start + 50) no_helloworld)
                         (λ d, get_programs d start (start + 50)
                                 no_helloworld);
        builtin_programs ← query db_get_builtin_programs
                                 get_builtin_programs;
        sync_info ← query utils_out_of_sync_check out_of_sync_check;
        mret (mkProgramsContext (programs ++ builtin_programs)%list page
                total_pages no_helloworld sync_info,
              cache_headers)
  end.

Definition similar_programs_route (request : Request)
  : Eff D (SimilarContext Row SyncInfo * list (string * string)) :=
  match requested_page request with
  | None => raise invalid_page
  | Some page =>
      match get "id" (query_params request) with
      | None =>
          raise {| status_code := 400; detail := "Missing program id" |}
      | Some program_id =>
          feature_hash ← query (db_get_program_feature_hash program_id)
                           (λ d, get_program_feature_hash d program_id);
          match feature_hash with
          | None =>
              raise {| status_code := 404; detail := "Program not found" |}
          | Some feature_hash =>
              total_programs ←
                query (db_get_program_similar_count program_id)
                      (λ d, get_program_similar_count d program_id);
              let total_pages := total_programs `div` 50 + 1 in
              if (page <? 1) || (total_pages <? page)
              then raise invalid_page
              else
                let start := 50 * (page - 1) in
                programs ←
                  query (db_get_programs_with_feature_hash feature_hash
                           start (start + 50))
                        (λ d, get_programs_with_feature_hash d feature_hash
                                start (start + 50));
                sync_info ← query utils_out_of_sync_check out_of_sync_check;
                mret (mkSimilarContext program_id programs page total_pages
                        sync_info,
                      cache_headers)
          end
      end
  end.

End Catalogue.

(** ** The store of verified sources *)

Module SourceStore.

Inductive CommitResult : Type :=
  | Committed
  | AlreadyCommitted.

(** Modelled from the spec: the SourceRecord store, whose code
    ([db.store_program_leo_source_code]) is not part of the module.  It
    holds at most one source text per program id; [tryCommit] creates
    the record when the id has none and otherwise leaves the store as
    it is and answers [AlreadyCommitted]. *)
Definition tryCommit (programId sourceText : string)
    (records : gmap string string) : CommitResult * gmap string string :=
  match records !! programId with
  | Some _ => (AlreadyCommitted, records)
  | None => (Committed, <[programId := sourceText]> records)
  end.

End SourceStore.

(** The chain index and the source store side by side. *)
Record ChainDb : Type := mkChainDb {
  chain_programs : gmap string Py.bytes;
  source_records : gmap string string
}.

(** Modelled from the spec: the three database calls of the source
    routes, answered by the chain index read ([get_program]) and by the
    SourceRecord store ([get] and [tryCommit], whose verdict the route
    discards). *)
#[global] Instance chain_program_db : ProgramDb ChainDb := {|
  get_program d program_id := chain_programs d !! program_id;
  get_program_leo_source_code d program_id := source_records d !! program_id;
  store_program_leo_source_code d program_id source :=
    mkChainDb (chain_programs d)
      (SourceStore.tryCommit program_id source (source_records d)).2
|}.

(** ** Well-formed submissions *)

(** A form that carries a program id, a source text that is not empty,
    and as many import names as import sources, none of them a file. *)
Record carries (form : MultiDict FormValue) (program_id source : string)
    (imports import_programs : list string) : Prop := {
  carries_id : get "id" form = Some (FStr program_id);
  carries_source : get "source" form = Some (FStr source);
  carries_text : source ≠ EmptyString;
  carries_imports : getlist "imports[]" form = FStr <$> imports;
  carries_import_programs :
    getlist "import_programs[]" form = FStr <$> import_programs;
  carries_lengths : length imports = length import_programs
}.


Definition is_store (ev : Event) : bool :=
  match ev with db_store_program_leo_source_code _ _ => true | _ => false end.

Definition mismatch_message : string :=
  "Program compiled from source code doesn't match program on chain".

(** ** A small chain, for examples *)

Module Demo.

Definition hello_bytes : Py.bytes := [x01; x02].
Definition main_bytes : Py.bytes := [x03].
Definition ping_bytes : Py.bytes := [x04].
Definition pong_bytes : Py.bytes := [x05].
Definition wallet_bytes : Py.bytes := [x06].
Definition loop_bytes : Py.bytes := [x07].

Definition aleo (program_name : string) : Aleo.Import :=
  {| Aleo.program_id := {| Aleo.name := program_name;
                           Aleo.network := "aleo" |} |}.

Definition program (program_name : string) (imports : list string)
  : Aleo.Program :=
  {| Aleo.id := Aleo.program_id (aleo program_name);
     Aleo.imports := aleo <$> imports |}.

(** [hello] imports nothing, [main] imports [dep] (which has no
    verified source), [ping] and [pong] import each other, [loop]
    imports itself, and [wallet] imports only the built-in [credits]. *)
Definition load (b : Py.bytes) : Aleo.Program :=
  if decide (b = main_bytes) then program "main" ["dep"]
  else if decide (b = ping_bytes) then program "ping" ["pong"]
  else if decide (b = pong_bytes) then program "pong" ["ping"]
  else if decide (b = wallet_bytes) then program "wallet" ["credits"]
  else if decide (b = loop_bytes) then program "loop" ["loop"]
  else program "hello" [].

Definition chain : gmap string Py.bytes :=
  <["hello.aleo" := hello_bytes]>
    (<["main.aleo" := main_bytes]>
       (<["ping.aleo" := ping_bytes]>
          (<["pong.aleo" := pong_bytes]>
             (<["wallet.aleo" := wallet_bytes]>
                (<["loop.aleo" := loop_bytes]> ∅))))).

Definition unverified : World ChainDb := mkWorld (mkChainDb chain ∅) [].

Definition hello_source : string := "program hello.aleo {}".
Definition other_source : string := "program hello.aleo { }".
Definition wrong_source : string := "program bye.aleo {}".

Definition verified : World ChainDb :=
  mkWorld (mkChainDb chain {[ "hello.aleo" := hello_source ]}) [].

Fixpoint many (n : nat) (c : ascii) : string :=
  match n with
  | O => EmptyString
  | S n' => String c (many n' c)
  end.

(** A compiler for tests: two texts compile to the bytecode of
    [hello], one to another bytecode, and anything else is an error
    with a 300-character message. *)
Definition compile (source name : string)
    (imports : list (string * string)) : Compiled :=
  if decide (source = hello_source) then Bytecode hello_bytes
  else if decide (source = other_source) then Bytecode hello_bytes
  else if decide (source = wrong_source) then Bytecode [x09]
  else RuntimeError (many 300 "e").

Definition submission_for (program_id source import import_program : string)
  : Request :=
  {| method := "POST";
     query_params := [];
     form := [("id", FStr program_id); ("source", FStr source);
              ("imports[]", FStr import);
              ("import_programs[]", FStr import_program)] |}.

Definition submission (source : string) : Request :=
  submission_for "hello.aleo" source "credits" "stub".

Definition upload_page (program_id : string) : Request :=
  {| method := "GET";
     query_params := [("id", program_id)];
     form := [] |}.

(** A catalogue with no program similar to [hello.aleo]. *)
Definition lonely : CatalogDb () string := {|
  get_program_count _ _ := 1;
  get_programs _ _ _ _ := ["hello.aleo"];
  get_builtin_programs _ := ["credits.aleo"];
  get_program_feature_hash _ program_id :=
    if decide (program_id = "hello.aleo") then Some "f00d" else None;
  get_program_similar_count _ _ := 0;
  get_programs_with_feature_hash _ _ _ _ := []
|}.

Definition similar_page (page : string) : Request :=
  {| method := "GET";
     query_params := [("id", "hello.aleo"); ("p", page)];
     form := [] |}.

Definition listing (query : MultiDict string) : Request :=
  {| method := "GET"; query_params := query; form := [] |}.

End Demo.

(** ** [program_route] *)

(** [s.split(sep, 1)[-1]] for a one-character separator: the text after
    the first occurrence of [sep], the whole text when there is none. *)
Fixpoint after_first (sep : ascii) (s : string) : string :=
  match s with
  | EmptyString => EmptyString
  | String c s' => if Ascii.eqb c sep then s' else after_first sep s'
  end.

Definition split_last (sep : ascii) (s : string) : string :=
  if Py.contains sep s then after_first sep s else s.

(** Blocks and transactions, as far as the page reads them; ids,
    addresses and signatures are carried by their [str]. *)
Module Chain.

Record Owner : Type := {
  address : string;
  signature : string
}.

Record Deployment : Type := {
  program : Aleo.Program
}.

Record Deploy : Type := {
  id : string;
  owner : Owner;
  deployment : Deployment
}.

Inductive Transaction : Type :=
  | DeployTransaction (tx : Deploy)
  | ExecuteTransaction (id : string)
  | FeeTransaction (id : string).

Inductive ConfirmedTransaction : Type :=
  | AcceptedDeploy (transaction : Transaction)
  | AcceptedExecute (transaction : Transaction)
  | RejectedDeploy (transaction : Transaction)
  | RejectedExecute (transaction : Transaction).

Record Block : Type := {
  transactions : list ConfirmedTransaction
}.

End Chain.

(** The dictionaries of a parsed program, by the [str] of their keys in
    the order of the dictionary; a mapping comes with the texts of its
    key and value types. *)
Class ProgramParts : Type := {
  functions : Aleo.Program → list string;
  mappings : Aleo.Program → list (string * (string * string));
  structs : Aleo.Program → list string;
  records : Aleo.Program → list string;
  closures : Aleo.Program → list string
}.

Class PageDb (D Call : Type) : Type := {
  get_block_by_program_id : D → string → option Chain.Block;
  get_program_address : D → string → string;
  get_program_called_times : D → string → Z;
  get_program_calls : D → string → Z → Z → list Call
}.

Record MappingInfo : Type := mkMappingInfo {
  mapping_name : string;
  mapping_key_type : string;
  mapping_value_type : string
}.

Record ProgramContext (Call SyncInfo : Type) : Type := mkProgramContext {
  page_program_id : string;
  page_times_called : Z;
  page_imports : list string;
  page_mappings : list MappingInfo;
  page_structs : list string;
  page_records : list string;
  page_closures : list string;
  page_functions : list string;
  page_source : string;
  page_has_leo_source : bool;
  page_recent_calls : list Call;
  page_similar_count : Z;
  page_address : string;
  page_sync_info : SyncInfo;
  page_transaction_id : option string;
  page_owner : option string;
  page_signature : option string
}.
Arguments mkProgramContext {Call SyncInfo} _ _ _ _ _ _ _ _ _ _ _ _ _ _ _ _ _.
Arguments page_program_id {Call SyncInfo} _.
Arguments page_times_called {Call SyncInfo} _.
Arguments page_imports {Call SyncInfo} _.
Arguments page_mappings {Call SyncInfo} _.
Arguments page_structs {Call SyncInfo} _.
Arguments page_records {Call SyncInfo} _.
Arguments page_closures {Call SyncInfo} _.
Arguments page_functions {Call SyncInfo} _.
Arguments page_source {Call SyncInfo} _.
Arguments page_has_leo_source {Call SyncInfo} _.
Arguments page_recent_calls {Call SyncInfo} _.
Arguments page_similar_count {Call SyncInfo} _.
Arguments page_address {Call SyncInfo} _.
Arguments page_sync_info {Call SyncInfo} _.
Arguments page_transaction_id {Call SyncInfo} _.
Arguments page_owner {Call SyncInfo} _.
Arguments page_signature {Call SyncInfo} _.

Section ProgramPage.
Context {D Row Call SyncInfo : Type}.
Context `{!ProgramDb D} `{!CatalogDb D Row} `{!PageDb D Call} `{!ProgramParts}.

Variable Program_load : Py.bytes → Aleo.Program.

(** [disasm.aleo.disassemble_program]. *)
Variable disassemble_program : Aleo.Program → string.

(** [function_signature] of [.utils], for a program id and a function. *)
Variable function_signature : D → string → string → string.

Variable out_of_sync_check : D → SyncInfo.

(** The loop over [block.transactions]: it stops at the first accepted
    deploy whose transaction is a deploy of the requested program. *)
Fixpoint find_deploy (program_id : string)
    (transactions : list Chain.ConfirmedTransaction) : option Chain.Deploy :=
  match transactions with
  | [] => None
  | Chain.AcceptedDeploy (Chain.DeployTransaction tx) :: rest =>
      if decide (Aleo.str (Aleo.id (Chain.program (Chain.deployment tx)))
                 = program_id)
      then Some tx
      else find_deploy program_id rest
  | _ :: rest => find_deploy program_id rest
  end.

(** The first half of the route: the program shown and the deploy
    transaction it comes from, if it comes from a block. *)
Definition locate_program (program_id : string) (d : D)
  : Outcome (Aleo.Program * option Chain.Deploy) :=
  match get_block_by_program_id d program_id with
  | Some block =>
      match find_deploy program_id (Chain.transactions block) with
      | None =>
          Raised {| status_code := 550;
                    detail := "Deploy transaction not found" |}
      | Some transaction =>
          Returned (Chain.program (Chain.deployment transaction),
                    Some transaction)
      end
  | None =>
      match get_program d program_id with
      | None | Some [] =>
          Raised {| status_code := 404; detail := "Program not found" |}
      | Some program_bytes => Returned (Program_load program_bytes, None)
      end
  end.

(** The route reads the database and writes nothing to it; it is a
    function of the database it reads. *)
Definition program_route (request : Request) (d : D)
  : Outcome (ProgramContext Call SyncInfo * list (string * string)) :=
  match get "id" (query_params request) with
  | None => Raised {| status_code := 400; detail := "Missing program id" |}
  | Some program_id =>
      match locate_program program_id d with
      | Raised e => Raised e
      | Returned (program, transaction) =>
          let functions :=
            (λ f, split_last "/"
                    (function_signature d (Aleo.str (Aleo.id program)) f))
              <$> functions program in
          let leo_source := get_program_leo_source_code d program_id in
          let source :=
            match leo_source with
            | Some leo => leo
            | None => disassemble_program program
            end in
          let has_leo_source := bool_decide (leo_source ≠ None) in
          let mappings :=
            (λ m, mkMappingInfo m.1 m.2.1 m.2.2) <$> mappings program in
          Returned
            (mkProgramContext
               (Aleo.str (Aleo.id program))
               (get_program_called_times d program_id)
               ((λ i, Aleo.str (Aleo.program_id i)) <$> Aleo.imports program)
               mappings
               (structs program)
               (records program)
               (closures program)
               functions
               source
               has_leo_source
               (get_program_calls d program_id 0 30)
               (get_program_similar_count d program_id)
               (get_program_address d program_id)
               (out_of_sync_check d)
               (Chain.id <$> transaction)
               ((λ tx, Chain.address (Chain.owner tx)) <$> transaction)
               ((λ tx, Chain.signature (Chain.owner tx)) <$> transaction),
             cache_headers)
      end
  end.

End ProgramPage.

(** ** A block and a program page, for examples *)

Module Tour.

Definition deploy (transaction_id program_name : string) : Chain.Deploy :=
  {| Chain.id := transaction_id;
     Chain.owner := {| Chain.address := "aleo1owner";
                       Chain.signature := "sign1owner" |};
     Chain.deployment :=
       {| Chain.program := Demo.program program_name ["credits"] |} |}.

(** An execution, a rejected deploy of [hello], an accepted deploy of
    another program, and then two accepted deploys of [hello]. *)
Definition block : Chain.Block :=
  {| Chain.transactions :=
       [Chain.AcceptedExecute (Chain.ExecuteTransaction "at1exec");
        Chain.RejectedDeploy
          (Chain.DeployTransaction (deploy "at1rejected" "hello"));
        Chain.AcceptedDeploy
          (Chain.DeployTransaction (deploy "at1other" "other"));
        Chain.AcceptedDeploy
          (Chain.DeployTransaction (deploy "at1first" "hello"));
        Chain.AcceptedDeploy
          (Chain.DeployTransaction (deploy "at1second" "hello"))] |}.

(** A block that only holds a rejected deploy of [ghost]. *)
Definition ghost_block : Chain.Block :=
  {| Chain.transactions :=
       [Chain.RejectedDeploy
          (Chain.DeployTransaction (deploy "at1ghost" "ghost"))] |}.

Definition pages : PageDb ChainDb string := {|
  get_block_by_program_id _ program_id :=
    if decide (program_id = "hello.aleo") then Some block
    else if decide (program_id = "ghost.aleo") then Some ghost_block
    else None;
  get_program_address _ program_id := "aleo1" +:+ program_id;
  get_program_called_times _ _ := 7;
  get_program_calls _ _ _ _ := ["call"]
|}.

Definition catalog : CatalogDb ChainDb string := {|
  get_program_count _ no_helloworld := if no_helloworld then 120 else 150;
  get_programs _ start stop _ := ["hello.aleo"];
  get_builtin_programs _ := ["credits.aleo"];
  get_program_feature_hash _ program_id :=
    if decide (program_id = "hello.aleo") then Some "f00d" else None;
  get_program_similar_count _ _ := 100;
  get_programs_with_feature_hash _ _ _ _ := ["twin.aleo"]
|}.

Definition parts : ProgramParts := {|
  functions _ := ["main"; "mint"];
  mappings _ := [("account", ("address", "u64"))];
  structs _ := [];
  records _ := ["token"];
  closures _ := []
|}.

Definition signature (d : ChainDb) (program_id function : string) : string :=
  program_id +:+ "/" +:+ function +:+ "(u32) -> u32".

Definition disassemble (program : Aleo.Program) : string :=
  "program " +:+ Aleo.str (Aleo.id program) +:+ ";".

Definition page (program_id : string) : Request :=
  {| method := "GET"; query_params := [("id", program_id)]; form := [] |}.

Definition no_id : Request :=
  {| method := "POST"; query_params := []; form := [] |}.

Definition with_file : Request :=
  {| method := "POST";
     query_params := [];
     form := [("id", FUpload "UploadFile(filename='x')")] |}.

Definition form_of (fields : MultiDict FormValue) : Request :=
  {| method := "POST"; query_params := []; form := fields |}.

End Tour.

(** * Properties *)

Example int_samples :
  Py.int "12" = Some 12 ∧ Py.int " -7 " = Some (-7) ∧ Py.int "1_0" = Some 10
  ∧ Py.int "00" = Some 0 ∧ Py.int "-0" = Some 0 ∧ Py.int "+5" = Some 5
  ∧ Py.int EmptyString = None ∧ Py.int "+" = None ∧ Py.int "- 5" = None
  ∧ Py.int "_1" = None ∧ Py.int "1_" = None ∧ Py.int "1__0" = None
  ∧ Py.int "+_1" = None ∧ Py.int "0x10" = None ∧ Py.int "1 2" = None
  ∧ Py.int "+-1" = None ∧ Py.int "true" = None.
Proof. repeat split; reflexivity. Qed.

(** ** The monad *)

Section EffFacts.
Context {D : Type}.

Lemma bind_query {A B} ev (q : D → A) (k : A → Eff D B) w :
  (query ev q ≫= k) w = k (q (db w)) (mkWorld (db w) (calls w ++ [ev])).
Proof. reflexivity. Qed.

Lemma bind_extern {A B} ev (a : A) (k : A → Eff D B) w :
  (extern ev a ≫= k) w = k a (mkWorld (db w) (calls w ++ [ev])).
Proof. reflexivity. Qed.

Lemma bind_update {B} ev (u : D → D) (k : () → Eff D B) w :
  (update ev u ≫= k) w = k () (mkWorld (u (db w)) (calls w ++ [ev])).
Proof. reflexivity. Qed.

Lemma bind_ret {A B} (a : A) (k : A → Eff D B) w :
  (mret a ≫= k) w = k a w.
Proof. reflexivity. Qed.

Lemma run_ret {A} (a : A) (w : World D) :
  (mret a : Eff D A) w = (Returned a, w).
Proof. reflexivity. Qed.

Lemma bind_raise {A B} e (k : A → Eff D B) w :
  (raise e ≫= k) w = (Raised e, w).
Proof. reflexivity. Qed.

End EffFacts.

(** ** Texts *)

Lemma slice_to_length n s :
  (n ≤ String.length s)%nat → String.length (Py.slice_to n s) = n.
Proof.
  revert s. induction n as [|n IH]; intros [|c s] Hn; simpl in *; try lia.
  rewrite IH; lia.
Qed.

Lemma slice_to_prefix n s : ∃ rest, s = Py.slice_to n s +:+ rest.
Proof.
  revert s. induction n as [|n IH]; intros s.
  - exists s. reflexivity.
  - destruct s as [|c s]; [exists EmptyString; reflexivity|].
    destruct (IH s) as [rest Hrest]. exists rest.
    change (String c s = String c (Py.slice_to n s +:+ rest)).
    now rewrite <- Hrest.
Qed.

Lemma string_app_length (s t : string) :
  String.length (s +:+ t) = (String.length s + String.length t)%nat.
Proof.
  induction s as [|c s IH]; [reflexivity|].
  change (S (String.length (s +:+ t)) = S (String.length s + String.length t)).
  now rewrite IH.
Qed.

Lemma split_head_suffix sep (name rest : string) :
  Py.contains sep name = false →
  Py.split_head sep (name +:+ String sep rest) = name.
Proof.
  induction name as [|c name IH]; intros Hc.
  - change (Py.split_head sep (String sep rest) = EmptyString).
    simpl. now rewrite Ascii.eqb_refl.
  - simpl in Hc. apply orb_false_iff in Hc as [Hc1 Hc2].
    change (Py.split_head sep (String c (name +:+ String sep rest))
            = String c name).
    simpl. rewrite Hc1, IH; auto.
Qed.

(** ** [submit_source_route] on a well-formed submission *)

Section SubmitFacts.
Context {D : Type} `{!ProgramDb D}.
Variable compile_program :
  string → string → list (string * string) → Compiled.

Lemma collect_import_data_texts (imports import_programs : list string) acc :
  collect_import_data (zip (FStr <$> imports) (FStr <$> import_programs)) acc
  = Some (acc ++ zip imports import_programs)%list.
Proof.
  revert import_programs acc.
  induction imports as [|i imports IH]; intros [|p ps] acc; simpl;
    rewrite ?app_nil_r; try reflexivity.
  rewrite IH, <- app_assoc. reflexivity.
Qed.

Lemma submit_source_route_compiles request w program_id on_chain source
    imports import_programs :
  carries (form request) program_id source imports import_programs →
  get_program (db w) program_id = Some on_chain →
  submit_source_route compile_program request w =
    let import_data := zip imports import_programs in
    let w' := compiled_world w program_id source import_data in
    match compile_program source (Py.split_head "." program_id) import_data
    with
    | RuntimeError e =>
        (Returned (back (Some (FStr program_id))
                     ("Failed to compile source code: " +:+ trim_message e)),
         w')
    | Bytecode compiled =>
        if decide (on_chain ≠ compiled)
        then (Returned (back (Some (FStr program_id)) mismatch_message), w')
        else (Returned (RedirectResponse ("/program?id=" +:+ program_id) 303),
              mkWorld
                (store_program_leo_source_code (db w) program_id source)
                (calls w' ++ [db_store_program_leo_source_code
                                program_id source]))
    end.
Proof.
  intros [Hid Hsrc Htext Himp Hprog Hlen] Hchain.
  unfold submit_source_route. rewrite Hid, bind_query, Hchain, Hsrc.
  destruct source as [|c source]; [done|].
  rewrite Himp, Hprog, !length_fmap, Hlen, Nat.eqb_refl.
  rewrite collect_import_data_texts, app_nil_l.
  change (negb true) with false. cbv beta iota zeta.
  rewrite bind_extern. unfold compiled_world.
  destruct (compile_program _ _ _) as [compiled|e].
  - destruct (decide (on_chain ≠ compiled)).
    + rewrite run_ret. cbn. now rewrite <- app_assoc.
    + rewrite bind_update, run_ret. cbn.
      now rewrite <- (app_assoc (calls w)).
  - rewrite run_ret. cbn. now rewrite <- app_assoc.
Qed.

End SubmitFacts.

(** ** The verdict of [submit_source_route] *)

Section Verdict.
Context {D : Type} `{!ProgramDb D}.
Variable compile_program :
  string → string → list (string * string) → Compiled.

(** C1: for a program id with on-chain bytecode [on_chain] and a
    submitted source with its imports, compiled bytecode equal to
    [on_chain] makes the route store the source and answer with the
    success redirect (303 to the program page), and any other compiled
    bytecode makes it answer with the bytecode-mismatch redirect. *)
Theorem submit_accepts_exactly_on_chain_bytecode request w program_id
    on_chain source imports import_programs compiled :
  carries (form request) program_id source imports import_programs →
  get_program (db w) program_id = Some on_chain →
  compile_program source (Py.split_head "." program_id)
    (zip imports import_programs) = Bytecode compiled →
  let w' := compiled_world w program_id source
              (zip imports import_programs) in
  (compiled = on_chain →
     submit_source_route compile_program request w =
       (Returned (RedirectResponse ("/program?id=" +:+ program_id) 303),
        mkWorld (store_program_leo_source_code (db w) program_id source)
          (calls w' ++ [db_store_program_leo_source_code
                          program_id source])))
  ∧ (compiled ≠ on_chain →
       submit_source_route compile_program request w =
         (Returned (back (Some (FStr program_id)) mismatch_message), w')).
Proof.
  intros Hform Hchain Hcompiled w'.
  rewrite (submit_source_route_compiles _ _ _ _ _ _ _ _ Hform Hchain).
  cbv zeta. rewrite Hcompiled. split; intros Hcmp.
  - subst compiled. destruct (decide (on_chain ≠ on_chain)); [done|].
    reflexivity.
  - destruct (decide (on_chain ≠ compiled)) as [|Heq]; [reflexivity|].
    exfalso. apply Hcmp. symmetry. now apply dec_stable.
Qed.

(** X6: the success redirect is only ever sent for bytecode equal to the
    on-chain one, whatever the request. *)
Lemma acceptance_requires_equal_bytecode request w url w' :
  submit_source_route compile_program request w =
    (Returned (RedirectResponse url 303), w') →
  ∃ program_id source import_data on_chain,
    get "id" (form request) = Some (FStr program_id)
    ∧ get "source" (form request) = Some (FStr source)
    ∧ get_program (db w) program_id = Some on_chain
    ∧ compile_program source (Py.split_head "." program_id) import_data
      = Bytecode on_chain
    ∧ db w' = store_program_leo_source_code (db w) program_id source.
Proof.
  unfold submit_source_route.
  destruct (get "id" (form request)) as [[program_id|shown]|] eqn:Hid;
    [|discriminate..].
  rewrite bind_query.
  destruct (get_program (db w) program_id) as [on_chain|] eqn:Hchain;
    [|discriminate].
  destruct (get "source" (form request)) as [[[|c source]|shown]|] eqn:Hsrc;
    [discriminate| |discriminate..].
  destruct (negb _); [discriminate|].
  destruct (collect_import_data _ _) as [import_data|]; [|discriminate].
  rewrite bind_extern.
  destruct (compile_program _ _ _) as [compiled|e] eqn:Hc; [|discriminate].
  destruct (decide (on_chain ≠ compiled)) as [|Heq]; [discriminate|].
  apply dec_stable in Heq. subst compiled.
  rewrite bind_update, run_ret. intros [= _ <-].
  exists program_id, (String c source), import_data, on_chain.
  repeat split; assumption || reflexivity.
Qed.

(** C2: a submission whose compiled bytecode differs from the on-chain
    bytecode is answered with the mismatch redirect, the database is
    the one the route started from, and none of the calls it made is a
    write to the source store. *)
Theorem mismatch_leaves_store_unchanged request w program_id on_chain
    source imports import_programs compiled :
  carries (form request) program_id source imports import_programs →
  get_program (db w) program_id = Some on_chain →
  compile_program source (Py.split_head "." program_id)
    (zip imports import_programs) = Bytecode compiled →
  compiled ≠ on_chain →
  let result := submit_source_route compile_program request w in
  result.1 = Returned (back (Some (FStr program_id)) mismatch_message)
  ∧ db result.2 = db w
  ∧ ∃ made, calls result.2 = (calls w ++ made)%list
            ∧ Forall (λ ev, is_store ev = false) made.
Proof.
  intros Hform Hchain Hcompiled Hne result. subst result.
  rewrite (submit_source_route_compiles _ _ _ _ _ _ _ _ Hform Hchain).
  cbv zeta. rewrite Hcompiled.
  destruct (decide (on_chain ≠ compiled)) as [|Heq].
  - repeat split. eexists. split; [reflexivity|].
    repeat constructor.
  - exfalso. apply Hne. symmetry. now apply dec_stable.
Qed.

(** C4: when the compiler raises, the message sent back is the
    compiler's own when it has at most 255 characters, and otherwise
    its first 255 characters followed by the marker [[trimmed]]; it
    never exceeds 264 characters. *)
Theorem compile_error_message_is_bounded request w program_id on_chain
    source imports import_programs e :
  carries (form request) program_id source imports import_programs →
  get_program (db w) program_id = Some on_chain →
  compile_program source (Py.split_head "." program_id)
    (zip imports import_programs) = RuntimeError e →
  submit_source_route compile_program request w =
    (Returned (back (Some (FStr program_id))
                 ("Failed to compile source code: " +:+ trim_message e)),
     compiled_world w program_id source (zip imports import_programs))
  ∧ (Py.len e ≤ 255 → trim_message e = e)
  ∧ (255 < Py.len e →
       trim_message e = Py.slice_to 255 e +:+ "[trimmed]"
       ∧ Py.len (Py.slice_to 255 e) = 255
       ∧ ∃ rest, e = Py.slice_to 255 e +:+ rest)
  ∧ Py.len (trim_message e) ≤ 264.
Proof.
  intros Hform Hchain Hcompiled.
  rewrite (submit_source_route_compiles _ _ _ _ _ _ _ _ Hform Hchain).
  cbv zeta. rewrite Hcompiled. split; [reflexivity|].
  unfold trim_message, Py.len.
  destruct (Z.ltb_spec 255 (Z.of_nat (String.length e))) as [Hlong|Hshort].
  - assert (String.length (Py.slice_to 255 e) = 255%nat) as Hlen
      by (apply slice_to_length; lia).
    split; [intros; lia|]. split.
    + intros _. split; [reflexivity|]. split.
      * now rewrite Hlen.
      * apply slice_to_prefix.
    + rewrite string_app_length, Hlen. simpl String.length. lia.
  - split; [reflexivity|]. split; [intros; lia | lia].
Qed.

(** C9, as the code has it: every submission reaches the compiler
    once, with the source text of the form, the program id cut at its
    first dot (the name without the [.aleo] suffix), and the pairs of
    import name and import source exactly as the form carries them, in
    the order of the form.  The route looks up the program's bytecode
    and nothing else before it compiles: the imports are not resolved
    from the store and not compared with the imports the program
    declares. *)
Theorem compiler_is_invoked_with_submission request w program_id on_chain
    source imports import_programs :
  carries (form request) program_id source imports import_programs →
  get_program (db w) program_id = Some on_chain →
  (∃ rest,
     calls (submit_source_route compile_program request w).2 =
       (calls w ++
        [db_get_program program_id;
         rust_compile_program source (Py.split_head "." program_id)
           (zip imports import_programs)] ++ rest)%list
     ∧ (rest = []
        ∨ rest = [db_store_program_leo_source_code program_id source]))
  ∧ (∀ name, program_id = name +:+ ".aleo" →
             Py.contains "." name = false →
             Py.split_head "." program_id = name).
Proof.
  intros Hform Hchain. split.
  - rewrite (submit_source_route_compiles _ _ _ _ _ _ _ _ Hform Hchain).
    cbv zeta. unfold compiled_world.
    destruct (compile_program _ _ _) as [compiled|e].
    + destruct (decide (on_chain ≠ compiled)).
      * exists []. rewrite app_nil_r. auto.
      * exists [db_store_program_leo_source_code program_id source].
        split; [cbn; now rewrite <- app_assoc | auto].
    + exists []. rewrite app_nil_r. auto.
  - intros name -> Hname. now apply split_head_suffix.
Qed.

End Verdict.

Lemma submit_accepts_exactly_on_chain_bytecode_witness :
  let request := Demo.submission Demo.hello_source in
  let w' := compiled_world Demo.unverified "hello.aleo" Demo.hello_source
              [("credits", "stub")] in
  (Demo.hello_bytes = Demo.hello_bytes →
     submit_source_route Demo.compile request Demo.unverified =
       (Returned (RedirectResponse ("/program?id=" +:+ "hello.aleo") 303),
        mkWorld (store_program_leo_source_code (db Demo.unverified)
                   "hello.aleo" Demo.hello_source)
          (calls w' ++ [db_store_program_leo_source_code
                          "hello.aleo" Demo.hello_source])))
  ∧ (Demo.hello_bytes ≠ Demo.hello_bytes →
       submit_source_route Demo.compile request Demo.unverified =
         (Returned (back (Some (FStr "hello.aleo")) mismatch_message), w')).
Proof.
  apply (submit_accepts_exactly_on_chain_bytecode Demo.compile
           (Demo.submission Demo.hello_source) Demo.unverified "hello.aleo"
           Demo.hello_bytes Demo.hello_source ["credits"] ["stub"]
           Demo.hello_bytes).
  - split; [reflexivity | reflexivity | discriminate | reflexivity ..].
  - reflexivity.
  - reflexivity.
Defined.

Lemma mismatch_leaves_store_unchanged_witness :
  let result := submit_source_route Demo.compile
                  (Demo.submission Demo.wrong_source) Demo.verified in
  result.1 = Returned (back (Some (FStr "hello.aleo")) mismatch_message)
  ∧ db result.2 = db Demo.verified
  ∧ ∃ made, calls result.2 = (calls Demo.verified ++ made)%list
            ∧ Forall (λ ev, is_store ev = false) made.
Proof.
  apply (mismatch_leaves_store_unchanged Demo.compile
           (Demo.submission Demo.wrong_source) Demo.verified "hello.aleo"
           Demo.hello_bytes Demo.wrong_source ["credits"] ["stub"] [x09]).
  - split; [reflexivity | reflexivity | discriminate | reflexivity ..].
  - reflexivity.
  - reflexivity.
  - discriminate.
Defined.

Lemma compile_error_message_is_bounded_witness :
  let e := Demo.many 300 "e" in
  submit_source_route Demo.compile (Demo.submission "fn main") Demo.unverified =
    (Returned (back (Some (FStr "hello.aleo"))
                 ("Failed to compile source code: " +:+ trim_message e)),
     compiled_world Demo.unverified "hello.aleo" "fn main"
       [("credits", "stub")])
  ∧ (Py.len e ≤ 255 → trim_message e = e)
  ∧ (255 < Py.len e →
       trim_message e = Py.slice_to 255 e +:+ "[trimmed]"
       ∧ Py.len (Py.slice_to 255 e) = 255
       ∧ ∃ rest, e = Py.slice_to 255 e +:+ rest)
  ∧ Py.len (trim_message e) ≤ 264.
Proof.
  apply (compile_error_message_is_bounded Demo.compile
           (Demo.submission "fn main") Demo.unverified "hello.aleo"
           Demo.hello_bytes "fn main" ["credits"] ["stub"]).
  - split; [reflexivity | reflexivity | discriminate | reflexivity ..].
  - reflexivity.
  - reflexivity.
Defined.

Lemma compiler_is_invoked_with_submission_witness :
  let request :=
    Tour.form_of [("id", FStr "main.aleo"); ("source", FStr Demo.hello_source);
                  ("imports[]", FStr "zzz");
                  ("import_programs[]", FStr "junk1");
                  ("imports[]", FStr "aaa");
                  ("import_programs[]", FStr "junk2")] in
  (∃ rest,
     calls (submit_source_route Demo.compile request Demo.unverified).2 =
       (calls Demo.unverified ++
        [db_get_program "main.aleo";
         rust_compile_program Demo.hello_source
           (Py.split_head "." "main.aleo")
           (zip ["zzz"; "aaa"] ["junk1"; "junk2"])] ++ rest)%list
     ∧ (rest = []
        ∨ rest = [db_store_program_leo_source_code "main.aleo"
                    Demo.hello_source]))
  ∧ (∀ name, "main.aleo" = name +:+ ".aleo" →
             Py.contains "." name = false →
             Py.split_head "." "main.aleo" = name).
Proof.
  apply (compiler_is_invoked_with_submission Demo.compile
           (Tour.form_of
              [("id", FStr "main.aleo"); ("source", FStr Demo.hello_source);
               ("imports[]", FStr "zzz");
               ("import_programs[]", FStr "junk1");
               ("imports[]", FStr "aaa");
               ("import_programs[]", FStr "junk2")])
           Demo.unverified "main.aleo" Demo.main_bytes Demo.hello_source
           ["zzz"; "aaa"] ["junk1"; "junk2"]).
  - split; [reflexivity | reflexivity | discriminate | reflexivity ..].
  - reflexivity.
Defined.

(** C9 as stated fails: [main.aleo] declares the one import [dep], and
    resolving it lists [dep] with no stored source; a submission for
    [main.aleo] that names two other imports in the form is compiled with
    exactly those two pairs, and one for [hello.aleo], which declares no
    import, is compiled with the pair the form names.  What the compiler
    receives is the form's list, not the resolved imports in declaration
    order. *)
Lemma compiler_gets_the_imports_of_the_form :
  let declared program_bytes :=
    (λ i, Aleo.name (Aleo.program_id i))
      <$> Aleo.imports (Demo.load program_bytes) in
  let resolved :=
    upload_source_route Demo.load (λ _ : ChainDb, ())
      (Demo.upload_page "main.aleo") Demo.unverified in
  let submitted :=
    submit_source_route Demo.compile
      (Tour.form_of
         [("id", FStr "main.aleo"); ("source", FStr Demo.hello_source);
          ("imports[]", FStr "zzz"); ("import_programs[]", FStr "junk1");
          ("imports[]", FStr "aaa"); ("import_programs[]", FStr "junk2")])
      Demo.unverified in
  let bare :=
    submit_source_route Demo.compile (Demo.submission Demo.hello_source)
      Demo.unverified in
  declared Demo.main_bytes = ["dep"]
  ∧ resolved.1 =
      Returned (mkUploadContext "main.aleo" ["dep"] [None] false None
                  (Some (FStr EmptyString)) (), cache_headers)
  ∧ calls submitted.2 =
      [db_get_program "main.aleo";
       rust_compile_program Demo.hello_source "main"
         [("zzz", "junk1"); ("aaa", "junk2")]]
  ∧ [("zzz", "junk1"); ("aaa", "junk2")].*1 ≠ declared Demo.main_bytes
  ∧ declared Demo.hello_bytes = []
  ∧ rust_compile_program Demo.hello_source "hello" [("credits", "stub")]
    ∈ calls bare.2.
Proof.
  cbv zeta. split; [reflexivity|]. split; [reflexivity|].
  split; [reflexivity|]. split; [discriminate|]. split; [reflexivity|].
  vm_compute. apply list_elem_of_further, list_elem_of_here.
Qed.

Example submit_samples :
  (submit_source_route Demo.compile (Demo.submission Demo.hello_source)
     Demo.unverified).1
  = Returned (RedirectResponse "/program?id=hello.aleo" 303)
  ∧ source_records
      (db (submit_source_route Demo.compile
             (Demo.submission Demo.hello_source) Demo.unverified).2)
    !! "hello.aleo" = Some Demo.hello_source
  ∧ (submit_source_route Demo.compile (Demo.submission Demo.wrong_source)
       Demo.unverified).1
    = Returned (RedirectResponse
        "/upload_source?id=hello.aleo&message=Program compiled from source code doesn't match program on chain"
        307)
  ∧ (submit_source_route Demo.compile (Demo.submission EmptyString)
       Demo.unverified).1
    = Returned (RedirectResponse
        "/upload_source?id=hello.aleo&message=Missing source code" 307).
Proof. repeat split; vm_compute; reflexivity. Qed.

(** ** Import resolution in [upload_source_route] *)

Section UploadFacts.
Context {D SyncInfo : Type} `{!ProgramDb D}.
Variable Program_load : Py.bytes → Aleo.Program.
Variable out_of_sync_check : D → SyncInfo.

Lemma resolve_imports_run todo imports import_programs (w : World D) :
  resolve_imports todo imports import_programs w =
    (Returned
       ((imports ++ ((λ i, Aleo.name (Aleo.program_id i)) <$> todo))%list,
        (import_programs ++ (import_source (db w) <$> todo))%list),
     mkWorld (db w) (calls w ++ import_calls todo)).
Proof.
  revert imports import_programs w.
  induction todo as [|i todo IH]; intros imports import_programs w.
  - cbn. rewrite !app_nil_r. now destruct w.
  - cbn [resolve_imports]. unfold import_calls, import_source in *.
    cbn [omap list_omap fmap list_fmap].
    destruct (Aleo.differs (Aleo.program_id i) "credits.aleo").
    + rewrite bind_query, IH. cbn [db calls].
      now rewrite <- !app_assoc.
    + rewrite IH. now rewrite <- !app_assoc.
Qed.

Lemma upload_source_route_resolves request (w : World D) program_id program :
  get "id" (query_params request) = Some program_id →
  get_program (db w) program_id = Some program →
  get_program_leo_source_code (db w) program_id = None →
  upload_source_route Program_load out_of_sync_check request w =
    let declared := Aleo.imports (Program_load program) in
    (Returned
       (mkUploadContext program_id
          ((λ i, Aleo.name (Aleo.program_id i)) <$> declared)
          (import_source (db w) <$> declared)
          false
          (get "message" (query_params request))
          (submitted_source request)
          (out_of_sync_check (db w)),
        cache_headers),
     mkWorld (db w)
       (calls w ++ [db_get_program program_id;
                    db_get_program_leo_source_code program_id]
                ++ import_calls declared ++ [utils_out_of_sync_check])).
Proof.
  intros Hid Hchain Hleo. unfold upload_source_route.
  rewrite Hid, bind_query, Hchain, bind_query. cbn [db calls].
  rewrite Hleo.
  unfold mbind at 1, eff_bind at 1. unfold mbind at 1, eff_bind at 1.
  rewrite resolve_imports_run. cbn [db calls].
  rewrite run_ret, bind_query, run_ret. cbn [db calls app].
  unfold submitted_source. now rewrite <- !app_assoc.
Qed.

End UploadFacts.

Section ResolutionFacts.
Context {D SyncInfo : Type} `{!ProgramDb D}.
Variable Program_load : Py.bytes → Aleo.Program.
Variable out_of_sync_check : D → SyncInfo.

Lemma import_calls_length todo :
  (length (import_calls todo) ≤ length todo)%nat.
Proof.
  unfold import_calls.
  induction todo as [|i todo IH]; [reflexivity|].
  cbn [omap list_omap length].
  destruct (Aleo.differs _ _); cbn [length]; lia.
Qed.

Lemma import_calls_are_lookups todo ev :
  ev ∈ import_calls todo →
  ∃ import_id, ev = db_get_program_leo_source_code import_id.
Proof.
  unfold import_calls. intros (i & _ & Hev)%list_elem_of_omap.
  destruct (Aleo.differs _ _); [|discriminate].
  injection Hev as <-. eauto.
Qed.

Lemma upload_source_route_verified request (w : World D) program_id program
    leo :
  get "id" (query_params request) = Some program_id →
  get_program (db w) program_id = Some program →
  get_program_leo_source_code (db w) program_id = Some leo →
  upload_source_route Program_load out_of_sync_check request w =
    (Returned
       (mkUploadContext program_id [] [] true
          (get "message" (query_params request))
          (submitted_source request)
          (out_of_sync_check (db w)),
        cache_headers),
     mkWorld (db w)
       (calls w ++ [db_get_program program_id;
                    db_get_program_leo_source_code program_id;
                    utils_out_of_sync_check])).
Proof.
  intros Hid Hchain Hleo. unfold upload_source_route.
  rewrite Hid, bind_query, Hchain, bind_query. cbn [db calls].
  rewrite Hleo, bind_ret, bind_query, run_ret. cbn [db calls].
  unfold submitted_source. now rewrite <- !app_assoc.
Qed.

(** [upload_source_route] only reads. *)
Lemma upload_source_route_reads_only request (w : World D) :
  db (upload_source_route Program_load out_of_sync_check request w).2 = db w.
Proof.
  unfold upload_source_route.
  destruct (get "id" (query_params request)) as [program_id|];
    [|reflexivity].
  rewrite bind_query.
  destruct (get_program (db w) program_id) as [program|] eqn:Hchain;
    [|reflexivity].
  rewrite bind_query. cbn [db calls].
  destruct (get_program_leo_source_code (db w) program_id) as [leo|].
  - now rewrite bind_ret, bind_query, run_ret.
  - unfold mbind at 1, eff_bind at 1. unfold mbind at 1, eff_bind at 1.
    rewrite resolve_imports_run. cbn [db calls].
    now rewrite run_ret, bind_query, run_ret.
Qed.

End ResolutionFacts.

Section Resolution.
Context {D SyncInfo : Type} `{!ProgramDb D}.
Variable Program_load : Py.bytes → Aleo.Program.
Variable out_of_sync_check : D → SyncInfo.


(** C7: a program whose only import is the built-in [credits.aleo]
    resolves whatever the source store holds for other ids (an empty
    store included): the context lists the import with the fixed
    placeholder [None], and the store is asked about the program itself
    only, never about the built-in. *)
Theorem builtin_import_needs_no_source_record request (w : World D)
    program_id program i :
  get "id" (query_params request) = Some program_id →
  get_program (db w) program_id = Some program →
  get_program_leo_source_code (db w) program_id = None →
  Aleo.imports (Program_load program) = [i] →
  Aleo.str (Aleo.program_id i) = "credits.aleo" →
  upload_source_route Program_load out_of_sync_check request w =
    (Returned
       (mkUploadContext program_id [Aleo.name (Aleo.program_id i)] [None]
          false
          (get "message" (query_params request))
          (submitted_source request)
          (out_of_sync_check (db w)),
        cache_headers),
     mkWorld (db w)
       (calls w ++ [db_get_program program_id;
                    db_get_program_leo_source_code program_id;
                    utils_out_of_sync_check])).
Proof.
  intros Hid Hchain Hleo Himports Hbuiltin.
  rewrite (upload_source_route_resolves _ _ _ _ _ _ Hid Hchain Hleo).
  cbv zeta. rewrite Himports. unfold import_source, import_calls.
  cbn [fmap list_fmap omap list_omap]. unfold Aleo.differs.
  rewrite Hbuiltin. reflexivity.
Qed.

(** C8, as the code has it: import resolution is one pass over the
    imports the program itself declares.  It always returns a context
    for a program the chain knows, after at most one store lookup per
    declared import (three other calls apart), and it reads the
    bytecode of no program but the requested one, so it never descends
    into the imports of an import and never reports a cycle. *)
Theorem import_resolution_is_one_pass request (w : World D) program_id
    program :
  get "id" (query_params request) = Some program_id →
  get_program (db w) program_id = Some program →
  ∃ ctx made,
    upload_source_route Program_load out_of_sync_check request w =
      (Returned (ctx, cache_headers), mkWorld (db w) (calls w ++ made))
    ∧ (length made ≤ 3 + length (Aleo.imports (Program_load program)))%nat
    ∧ ∀ other, db_get_program other ∈ made → other = program_id.
Proof.
  intros Hid Hchain.
  destruct (get_program_leo_source_code (db w) program_id) as [leo|] eqn:Hleo.
  - rewrite (upload_source_route_verified _ _ _ _ _ _ _ Hid Hchain Hleo).
    eexists _, _. split; [reflexivity|]. split; [cbn; lia|].
    intros other Hin.
    apply elem_of_cons in Hin as [[= ->]|Hin]; [reflexivity|].
    apply elem_of_cons in Hin as [[=]|Hin].
    apply elem_of_cons in Hin as [[=]|Hin].
    now apply elem_of_nil in Hin.
  - rewrite (upload_source_route_resolves _ _ _ _ _ _ Hid Hchain Hleo).
    cbv zeta. eexists _, _. split; [reflexivity|]. split.
    + cbn [length app]. rewrite length_app. cbn [length].
      pose proof (import_calls_length (Aleo.imports (Program_load program))).
      lia.
    + intros other Hin. cbn [app] in Hin.
      apply elem_of_cons in Hin as [[= ->]|Hin]; [reflexivity|].
      apply elem_of_cons in Hin as [[=]|Hin].
      apply elem_of_app in Hin as [Hin|Hin].
      * apply import_calls_are_lookups in Hin as [? [=]].
      * apply elem_of_cons in Hin as [[=]|Hin].
        now apply elem_of_nil in Hin.
Qed.

End Resolution.



Lemma builtin_import_needs_no_source_record_witness :
  upload_source_route Demo.load (λ _ : ChainDb, ())
    (Demo.upload_page "wallet.aleo") Demo.unverified =
    (Returned
       (mkUploadContext "wallet.aleo"
          [Aleo.name (Aleo.program_id (Demo.aleo "credits"))] [None] false
          (get "message" (query_params (Demo.upload_page "wallet.aleo")))
          (submitted_source (Demo.upload_page "wallet.aleo"))
          (), cache_headers),
     mkWorld (db Demo.unverified)
       (calls Demo.unverified ++
        [db_get_program "wallet.aleo";
         db_get_program_leo_source_code "wallet.aleo";
         utils_out_of_sync_check])).
Proof.
  apply (builtin_import_needs_no_source_record Demo.load (λ _ : ChainDb, ())
           (Demo.upload_page "wallet.aleo") Demo.unverified "wallet.aleo"
           Demo.wallet_bytes (Demo.aleo "credits"));
    reflexivity.
Defined.

Lemma import_resolution_is_one_pass_witness :
  ∃ ctx made,
    upload_source_route Demo.load (λ _ : ChainDb, ())
      (Demo.upload_page "ping.aleo") Demo.unverified =
      (Returned (ctx, cache_headers),
       mkWorld (db Demo.unverified) (calls Demo.unverified ++ made))
    ∧ (length made
       ≤ 3 + length (Aleo.imports (Demo.load Demo.ping_bytes)))%nat
    ∧ ∀ other, db_get_program other ∈ made → other = "ping.aleo".
Proof.
  apply (import_resolution_is_one_pass Demo.load (λ _ : ChainDb, ())
           (Demo.upload_page "ping.aleo") Demo.unverified "ping.aleo"
           Demo.ping_bytes);
    reflexivity.
Defined.

(** C8 as stated fails: [ping.aleo] and [pong.aleo] import each other and
    [loop.aleo] imports itself, yet resolving [ping.aleo] and [loop.aleo]
    raises nothing: both answer with the upload context, the repeated id
    listed like any other import. *)
Lemma cyclic_import_is_not_reported :
  let resolve program_id :=
    (upload_source_route Demo.load (λ _ : ChainDb, ())
       (Demo.upload_page program_id) Demo.unverified).1 in
  Demo.aleo "pong" ∈ Aleo.imports (Demo.load Demo.ping_bytes)
  ∧ Demo.aleo "ping" ∈ Aleo.imports (Demo.load Demo.pong_bytes)
  ∧ Demo.aleo "loop" ∈ Aleo.imports (Demo.load Demo.loop_bytes)
  ∧ resolve "ping.aleo" =
      Returned (mkUploadContext "ping.aleo" ["pong"] [None] false None
                  (Some (FStr EmptyString)) (), cache_headers)
  ∧ resolve "loop.aleo" =
      Returned (mkUploadContext "loop.aleo" ["loop"] [None] false None
                  (Some (FStr EmptyString)) (), cache_headers)
  ∧ (∀ e, resolve "ping.aleo" ≠ Raised e)
  ∧ (∀ e, resolve "loop.aleo" ≠ Raised e).
Proof.
  cbv zeta. repeat split;
    first [apply list_elem_of_here | reflexivity | discriminate].
Qed.

(** ** The source store under [submit_source_route] *)

Lemma tryCommit_keeps program_id source records other record :
  records !! other = Some record →
  (SourceStore.tryCommit program_id source records).2 !! other = Some record.
Proof.
  intros Hother. unfold SourceStore.tryCommit.
  destruct (records !! program_id) eqn:Hpid; [exact Hother|].
  cbn. rewrite lookup_insert_ne; [exact Hother | congruence].
Qed.

Lemma tryCommit_taken program_id source records record :
  records !! program_id = Some record →
  SourceStore.tryCommit program_id source records
  = (SourceStore.AlreadyCommitted, records).
Proof. intros Hpid. unfold SourceStore.tryCommit. now rewrite Hpid. Qed.

Lemma tryCommit_fresh program_id source records :
  records !! program_id = None →
  SourceStore.tryCommit program_id source records
  = (SourceStore.Committed, <[program_id := source]> records).
Proof. intros Hpid. unfold SourceStore.tryCommit. now rewrite Hpid. Qed.

Section StoreFacts.
Context {D : Type} `{!ProgramDb D}.
Variable compile_program :
  string → string → list (string * string) → Compiled.

(** The route writes at most once, and only through
    [store_program_leo_source_code]. *)
Lemma submit_source_route_writes request (w : World D) :
  let w' := (submit_source_route compile_program request w).2 in
  db w' = db w
  ∨ ∃ program_id source,
      db w' = store_program_leo_source_code (db w) program_id source.
Proof.
  cbv zeta. unfold submit_source_route.
  destruct (get "id" (form request)) as [[program_id|shown]|];
    [|left; reflexivity..].
  rewrite bind_query.
  destruct (get_program (db w) program_id) as [on_chain|];
    [|left; reflexivity].
  destruct (get "source" (form request)) as [[[|c source]|shown]|];
    [left; reflexivity| |left; reflexivity..].
  destruct (negb _); [left; reflexivity|].
  destruct (collect_import_data _ _) as [import_data|];
    [|left; reflexivity].
  rewrite bind_extern.
  destruct (compile_program _ _ _) as [compiled|e]; [|left; reflexivity].
  destruct (decide (on_chain ≠ compiled)); [left; reflexivity|].
  right. rewrite bind_update, run_ret. eauto.
Qed.

End StoreFacts.

(** C3: with the source store of the specification behind the database
    calls, a record that exists for a program id is still there, with
    the same text, after any run of [submit_source_route]; the upload
    route leaves the whole database as it is; and submitting again a
    source that compiles to the on-chain bytecode is answered with the
    success redirect while the database stays exactly as it was. *)
Theorem committed_source_is_never_altered compile_program request
    resubmission (w : World ChainDb) program_id record on_chain source
    imports import_programs :
  source_records (db w) !! program_id = Some record →
  carries (form resubmission) program_id source imports import_programs →
  get_program (db w) program_id = Some on_chain →
  compile_program source (Py.split_head "." program_id)
    (zip imports import_programs) = Bytecode on_chain →
  source_records (db (submit_source_route compile_program request w).2)
    !! program_id = Some record
  ∧ (∀ Program_load (out_of_sync_check : ChainDb → ()),
       db (upload_source_route Program_load out_of_sync_check request w).2
       = db w)
  ∧ (submit_source_route compile_program resubmission w).1
    = Returned (RedirectResponse ("/program?id=" +:+ program_id) 303)
  ∧ db (submit_source_route compile_program resubmission w).2 = db w.
Proof.
  intros Hrecord Hform Hchain Hcompiled. split; [|split].
  - destruct (submit_source_route_writes compile_program request w)
      as [->|(pid & text & ->)]; [exact Hrecord|].
    cbn. now apply tryCommit_keeps.
  - intros. apply upload_source_route_reads_only.
  - rewrite (submit_source_route_compiles compile_program resubmission w
               program_id on_chain source imports import_programs
               Hform Hchain).
    cbv zeta. rewrite Hcompiled.
    destruct (decide (on_chain ≠ on_chain)); [done|].
    split; [reflexivity|]. cbn.
    rewrite (tryCommit_taken _ _ _ _ Hrecord). now destruct (db w).
Qed.

Lemma committed_source_is_never_altered_witness :
  let request := Demo.submission_for "hello.aleo" Demo.hello_source
                   "credits" "another stub" in
  let resubmission := Demo.submission Demo.other_source in
  source_records
    (db (submit_source_route Demo.compile request Demo.verified).2)
    !! "hello.aleo" = Some Demo.hello_source
  ∧ (∀ Program_load (out_of_sync_check : ChainDb → ()),
       db (upload_source_route Program_load out_of_sync_check request
             Demo.verified).2
       = db Demo.verified)
  ∧ (submit_source_route Demo.compile resubmission Demo.verified).1
    = Returned (RedirectResponse ("/program?id=" +:+ "hello.aleo") 303)
  ∧ db (submit_source_route Demo.compile resubmission Demo.verified).2
    = db Demo.verified.
Proof.
  apply (committed_source_is_never_altered Demo.compile
           (Demo.submission_for "hello.aleo" Demo.hello_source
              "credits" "another stub")
           (Demo.submission Demo.other_source) Demo.verified "hello.aleo"
           Demo.hello_source Demo.hello_bytes Demo.other_source
           ["credits"] ["stub"]).
  - reflexivity.
  - split; [reflexivity | reflexivity | discriminate | reflexivity ..].
  - reflexivity.
  - reflexivity.
Defined.

Example resubmission_samples :
  let first := submit_source_route Demo.compile
                 (Demo.submission Demo.hello_source) Demo.unverified in
  let again := submit_source_route Demo.compile
                 (Demo.submission Demo.hello_source) first.2 in
  let other := submit_source_route Demo.compile
                 (Demo.submission Demo.other_source) first.2 in
  first.1 = Returned (RedirectResponse "/program?id=hello.aleo" 303)
  ∧ again.1 = first.1 ∧ db again.2 = db first.2
  ∧ other.1 = first.1 ∧ db other.2 = db first.2
  ∧ source_records (db other.2) !! "hello.aleo" = Some Demo.hello_source.
Proof. cbv zeta. repeat split; vm_compute; reflexivity. Qed.

(** ** Pages of the catalogue *)

Section Pagination.
Context {D Row SyncInfo : Type} `{!CatalogDb D Row}.
Variable out_of_sync_check : D → SyncInfo.

(** The guard on the page number, read on the offset it stands for. *)
Lemma page_guard page total :
  (page <? 1) || (total `div` 50 + 1 <? page)
  = negb (bool_decide (0 ≤ 50 * (page - 1) ≤ total)).
Proof.
  pose proof (Z.div_le_lower_bound total 50 (page - 1)) as Hlow.
  pose proof (Z.div_lt_upper_bound total 50 (page - 1)) as Hup.
  destruct (Z.ltb_spec page 1), (Z.ltb_spec (total `div` 50 + 1) page);
    cbn; symmetry; rewrite negb_true_iff || rewrite negb_false_iff;
    rewrite ?bool_decide_eq_false, ?bool_decide_eq_true; lia.
Qed.

(** C5, as the code has it: a similarity page is served exactly when
    its offset [50 * (page - 1)] lies between 0 and the similar count.
    An offset equal to the count is served, with what the store
    answers for the range; every offset strictly beyond the count is
    refused with HTTP 400 "Invalid page". *)
Theorem similar_page_is_served_up_to_count request (w : World D) page
    program_id feature_hash :
  requested_page request = Some page →
  get "id" (query_params request) = Some program_id →
  get_program_feature_hash (db w) program_id = Some feature_hash →
  let count := get_program_similar_count (db w) program_id in
  let offset := 50 * (page - 1) in
  let asked := [db_get_program_feature_hash program_id;
                db_get_program_similar_count program_id] in
  similar_programs_route out_of_sync_check request w =
    if bool_decide (0 ≤ offset ≤ count)
    then
      (Returned
         (mkSimilarContext program_id
            (get_programs_with_feature_hash (db w) feature_hash
               offset (offset + 50))
            page (count `div` 50 + 1) (out_of_sync_check (db w)),
          cache_headers),
       mkWorld (db w)
         (calls w ++ asked ++
          [db_get_programs_with_feature_hash feature_hash
             offset (offset + 50);
           utils_out_of_sync_check]))
    else (Raised invalid_page, mkWorld (db w) (calls w ++ asked)).
Proof.
  intros Hpage Hid Hhash. cbv zeta. unfold similar_programs_route.
  rewrite Hpage, Hid, bind_query, Hhash, bind_query. cbn [db calls].
  rewrite page_guard.
  destruct (bool_decide _); cbn [negb].
  - rewrite !bind_query, run_ret. cbn [db calls].
    now rewrite <- !app_assoc.
  - unfold raise. now rewrite <- !app_assoc.
Qed.

(** C10: whatever the [no_helloworld] parameter holds, a request for a
    page that exists is served.  The filter is off when the parameter
    is absent or is not the text of an integer, and for the text of an
    integer it is on exactly when the integer is not zero; the value
    goes to both catalogue queries and into the context. *)
Theorem no_helloworld_is_lenient request (w : World D) page :
  let no_helloworld :=
    match get "no_helloworld" (query_params request) with
    | None => false
    | Some text =>
        match Py.int text with
        | None => false
        | Some n => bool_decide (n ≠ 0)
        end
    end in
  let total := get_program_count (db w) no_helloworld in
  let start := 50 * (page - 1) in
  requested_page request = Some page →
  1 ≤ page ≤ total `div` 50 + 1 →
  programs_route out_of_sync_check request w =
    (Returned
       (mkProgramsContext
          (get_programs (db w) start (start + 50) no_helloworld
           ++ get_builtin_programs (db w))%list
          page (total `div` 50 + 1) no_helloworld
          (out_of_sync_check (db w)),
        cache_headers),
     mkWorld (db w)
       (calls w ++
        [db_get_program_count no_helloworld;
         db_get_programs start (start + 50) no_helloworld;
         db_get_builtin_programs;
         utils_out_of_sync_check])).
Proof.
  cbv zeta. intros Hpage Hrange. unfold programs_route.
  assert (requested_no_helloworld request =
          match get "no_helloworld" (query_params request) with
          | None => false
          | Some text =>
              match Py.int text with
              | None => false
              | Some n => bool_decide (n ≠ 0)
              end
          end) as ->.
  { unfold requested_no_helloworld, Py.bool_of_int.
    destruct (get _ _) as [text|]; [|reflexivity].
    destruct (Py.int text) as [n|]; [|reflexivity].
    destruct (Z.eqb_spec n 0) as [->|Hn]; cbn; symmetry.
    - now apply bool_decide_eq_false.
    - now apply bool_decide_eq_true. }
  rewrite Hpage, bind_query. cbn [db calls].
  destruct (Z.ltb_spec page 1); [lia|].
  destruct (Z.ltb_spec (get_program_count (db w)
    match get "no_helloworld" (query_params request) with
    | None => false
    | Some text =>
        match Py.int text with
        | None => false
        | Some n => bool_decide (n ≠ 0)
        end
    end `div` 50 + 1) page); [lia|].
  cbn [orb]. rewrite !bind_query, run_ret. cbn [db calls].
  now rewrite <- !app_assoc.
Qed.

(** The only refusal [programs_route] knows is the one of the page. *)
Lemma programs_route_only_refuses_pages request (w : World D) e :
  (programs_route out_of_sync_check request w).1 = Raised e →
  e = invalid_page.
Proof.
  unfold programs_route.
  destruct (requested_page request) as [page|]; [|now intros [= <-]].
  rewrite bind_query.
  destruct (_ || _); [now intros [= <-]|].
  now rewrite !bind_query, run_ret.
Qed.

End Pagination.

Lemma similar_page_is_served_up_to_count_witness :
  let w := mkWorld () [] in
  let asked := [db_get_program_feature_hash "hello.aleo";
                db_get_program_similar_count "hello.aleo"] in
  @similar_programs_route () string () Demo.lonely (λ _, ())
    (Demo.similar_page "1") w =
    if bool_decide (0 ≤ 50 * (1 - 1) ≤ 0)
    then
      (Returned
         (mkSimilarContext "hello.aleo"
            (@get_programs_with_feature_hash () string Demo.lonely (db w)
               "f00d" (50 * (1 - 1)) (50 * (1 - 1) + 50))
            1 (0 `div` 50 + 1) (),
          cache_headers),
       mkWorld (db w)
         (calls w ++ asked ++
          [db_get_programs_with_feature_hash "f00d"
             (50 * (1 - 1)) (50 * (1 - 1) + 50);
           utils_out_of_sync_check]))
    else (Raised invalid_page, mkWorld (db w) (calls w ++ asked)).
Proof.
  apply (@similar_page_is_served_up_to_count () string () Demo.lonely
           (λ _, ()) (Demo.similar_page "1") (mkWorld () []) 1
           "hello.aleo" "f00d");
    reflexivity.
Defined.

(** C5 as stated fails: no program is similar to [hello.aleo], so the
    offset 50 of page 2 lies beyond the count, and the route raises HTTP
    400 where the claim promises an empty page. *)
Lemma page_beyond_count_raises :
  let result := @similar_programs_route () string () Demo.lonely (λ _, ())
                  (Demo.similar_page "2") (mkWorld () []) in
  @get_program_similar_count () string Demo.lonely () "hello.aleo" = 0
  ∧ requested_page (Demo.similar_page "2") = Some 2
  ∧ 0 ≤ 50 * (2 - 1)
  ∧ result.1 = Raised {| status_code := 400; detail := "Invalid page" |}
  ∧ ∀ ctx, result.1 ≠ Returned ctx.
Proof.
  cbv zeta. split; [reflexivity|]. split; [reflexivity|].
  split; [lia|]. split; [reflexivity | discriminate].
Qed.

Lemma no_helloworld_is_lenient_witness :
  let request := Demo.listing [("no_helloworld", "yes")] in
  let w := mkWorld () [] in
  @programs_route () string () Demo.lonely (λ _, ()) request w =
    (Returned
       (mkProgramsContext
          (@get_programs () string Demo.lonely (db w)
             (50 * (1 - 1)) (50 * (1 - 1) + 50) false
           ++ @get_builtin_programs () string Demo.lonely (db w))%list
          1 (@get_program_count () string Demo.lonely (db w) false
             `div` 50 + 1)
          false (),
        cache_headers),
     mkWorld (db w)
       (calls w ++
        [db_get_program_count false;
         db_get_programs (50 * (1 - 1)) (50 * (1 - 1) + 50) false;
         db_get_builtin_programs;
         utils_out_of_sync_check])).
Proof.
  apply (@no_helloworld_is_lenient () string () Demo.lonely (λ _, ())
           (Demo.listing [("no_helloworld", "yes")]) (mkWorld () []) 1).
  - reflexivity.
  - vm_compute. split; discriminate.
Defined.

Example no_helloworld_samples :
  requested_no_helloworld (Demo.listing []) = false
  ∧ requested_no_helloworld (Demo.listing [("no_helloworld", "yes")]) = false
  ∧ requested_no_helloworld (Demo.listing [("no_helloworld", EmptyString)]) = false
  ∧ requested_no_helloworld (Demo.listing [("no_helloworld", "0")]) = false
  ∧ requested_no_helloworld (Demo.listing [("no_helloworld", "-0")]) = false
  ∧ requested_no_helloworld (Demo.listing [("no_helloworld", "1")]) = true
  ∧ requested_no_helloworld (Demo.listing [("no_helloworld", "-3")]) = true
  ∧ requested_no_helloworld (Demo.listing [("no_helloworld", " 2 ")]) = true.
Proof. repeat split; reflexivity. Qed.


(** ** Refusals of [submit_source_route] *)

Section SubmitEdges.
Context {D : Type} `{!ProgramDb D}.
Variable compile_program :
  string → string → list (string * string) → Compiled.

(** X1: a form without a program id, or with a file in its place, is sent
    back with "Missing program id" before anything is looked up; the
    link back carries what Python prints for the value, [None] for a
    missing one. *)
Theorem submit_without_program_id request (w : World D) :
  (∀ program_id, get "id" (form request) ≠ Some (FStr program_id)) →
  submit_source_route compile_program request w =
    (Returned
       (RedirectResponse
          ("/upload_source?id=" +:+ fmt (get "id" (form request))
           +:+ "&message=Missing program id") 307),
     w).
Proof.
  intros Hid. unfold submit_source_route.
  destruct (get "id" (form request)) as [[program_id|shown]|];
    [now destruct (Hid program_id) | reflexivity ..].
Qed.

(** X2: a program id the chain does not know is sent back with "Program not
    found" after the one lookup, whatever else the form holds. *)
Theorem submit_for_unknown_program request (w : World D) program_id :
  get "id" (form request) = Some (FStr program_id) →
  get_program (db w) program_id = None →
  submit_source_route compile_program request w =
    (Returned (back (Some (FStr program_id)) "Program not found"),
     mkWorld (db w) (calls w ++ [db_get_program program_id])).
Proof.
  intros Hid Hchain. unfold submit_source_route.
  now rewrite Hid, bind_query, Hchain.
Qed.

(** X3: a form whose source is missing, is a file, or is the empty text is
    sent back with "Missing source code"; the compiler is not called. *)
Theorem submit_without_source request (w : World D) program_id on_chain :
  get "id" (form request) = Some (FStr program_id) →
  get_program (db w) program_id = Some on_chain →
  (∀ c source, get "source" (form request) ≠ Some (FStr (String c source))) →
  submit_source_route compile_program request w =
    (Returned (back (Some (FStr program_id)) "Missing source code"),
     mkWorld (db w) (calls w ++ [db_get_program program_id])).
Proof.
  intros Hid Hchain Hsource. unfold submit_source_route.
  rewrite Hid, bind_query, Hchain.
  destruct (get "source" (form request)) as [[[|c source]|shown]|];
    [reflexivity | now destruct (Hsource c source) | reflexivity ..].
Qed.

Lemma collect_import_data_file pairs acc shown :
  (FUpload shown ∈ pairs.*1 ∨ FUpload shown ∈ pairs.*2) →
  collect_import_data pairs acc = None.
Proof.
  revert acc. induction pairs as [|[i p] pairs IH]; intros acc Hin.
  - destruct Hin as [Hin|Hin]; now apply elem_of_nil in Hin.
  - cbn in Hin. destruct i as [i|si]; [|reflexivity].
    destruct p as [p|sp]; [|reflexivity].
    cbn. apply IH.
    destruct Hin as [Hin|Hin]; apply elem_of_cons in Hin as [[=]|Hin]; auto.
Qed.

(** X4: import names and import sources that differ in number, or hold a
    file, are sent back with "Invalid form data"; the compiler is not
    called. *)
Theorem submit_with_invalid_imports request (w : World D) program_id on_chain
    c source :
  let imports := getlist "imports[]" (form request) in
  let import_programs := getlist "import_programs[]" (form request) in
  get "id" (form request) = Some (FStr program_id) →
  get_program (db w) program_id = Some on_chain →
  get "source" (form request) = Some (FStr (String c source)) →
  (length imports ≠ length import_programs
   ∨ ∃ shown, FUpload shown ∈ imports ∨ FUpload shown ∈ import_programs) →
  submit_source_route compile_program request w =
    (Returned (back (Some (FStr program_id)) "Invalid form data"),
     mkWorld (db w) (calls w ++ [db_get_program program_id])).
Proof.
  cbv zeta. intros Hid Hchain Hsource Hbad. unfold submit_source_route.
  rewrite Hid, bind_query, Hchain, Hsource.
  destruct (Nat.eqb_spec (length (getlist "imports[]" (form request)))
              (length (getlist "import_programs[]" (form request))))
    as [Hlen|Hlen]; [|reflexivity].
  cbn [negb]. destruct Hbad as [Hne|[shown Hin]]; [done|].
  rewrite (collect_import_data_file _ _ shown); [reflexivity|].
  rewrite fst_zip, snd_zip by lia. exact Hin.
Qed.

(** X5: the loop over the import pairs succeeds exactly on pairs of texts,
    and then hands over those texts in their order. *)
Theorem collect_import_data_exact pairs import_data :
  collect_import_data pairs [] = Some import_data
  ↔ pairs = (λ ip, (FStr ip.1, FStr ip.2)) <$> import_data.
Proof.
  assert (∀ acc data,
            collect_import_data pairs acc = Some data
            ↔ ∃ rest, data = (acc ++ rest)%list
                      ∧ pairs = (λ ip, (FStr ip.1, FStr ip.2)) <$> rest)
    as Hgen.
  { induction pairs as [|[i p] pairs IH]; intros acc data.
    - cbn. split.
      + intros [= <-]. exists []. now rewrite app_nil_r.
      + intros (rest & -> & Hrest). symmetry in Hrest.
        apply fmap_nil_inv in Hrest as ->. now rewrite app_nil_r.
    - destruct i as [i|si], p as [p|sp]; cbn;
        try (split; [discriminate | intros ([|[??] ?] & _ & [=])]).
      rewrite IH. split.
      + intros (rest & -> & ->). exists ((i, p) :: rest).
        now rewrite <- app_assoc.
      + intros ([|[i' p'] rest] & -> & [=]). subst.
        exists rest. now rewrite <- app_assoc. }
  rewrite Hgen. split.
  - now intros (rest & -> & ->).
  - intros ->. eauto.
Qed.

(** X7: what a run of the route calls, in order: the program lookup, then
    the compiler, then the store.  It stops after any of them, so the
    compiler runs at most once and only for a known program, and the
    store is written at most once and only after a compilation. *)
Theorem submit_source_route_call_order request (w : World D) :
  ∃ made,
    calls (submit_source_route compile_program request w).2
    = (calls w ++ made)%list
    ∧ (made = []
       ∨ ∃ program_id,
           made = [db_get_program program_id]
           ∨ ∃ source name import_data,
               made = [db_get_program program_id;
                       rust_compile_program source name import_data]
               ∨ made = [db_get_program program_id;
                         rust_compile_program source name import_data;
                         db_store_program_leo_source_code program_id source]).
Proof.
  unfold submit_source_route.
  destruct (get "id" (form request)) as [[program_id|shown]|];
    [|exists []; rewrite app_nil_r; auto ..].
  rewrite bind_query.
  destruct (get_program (db w) program_id) as [on_chain|];
    [|exists [db_get_program program_id]; eauto].
  destruct (get "source" (form request)) as [[[|c source]|shown]|];
    [exists [db_get_program program_id]; eauto|
    |exists [db_get_program program_id]; eauto ..].
  destruct (negb _); [exists [db_get_program program_id]; eauto|].
  destruct (collect_import_data _ _) as [import_data|];
    [|exists [db_get_program program_id]; eauto].
  rewrite bind_extern.
  destruct (compile_program _ _ _) as [compiled|e].
  - destruct (decide (on_chain ≠ compiled)).
    + eexists. rewrite run_ret. cbn [calls snd].
      rewrite <- app_assoc. split; [reflexivity|]. cbn. eauto 8.
    + eexists. rewrite bind_update, run_ret. cbn [calls snd].
      rewrite <- !app_assoc. split; [reflexivity|]. cbn. eauto 8.
  - eexists. rewrite run_ret. cbn [calls snd].
    rewrite <- app_assoc. split; [reflexivity|]. cbn. eauto 8.
Qed.

(** X8: the route never raises: it answers with the redirect to the program
    page (303), or with a redirect back to the upload page (307) that
    names the id as submitted, and in the second case the database is
    the one it started from. *)
Theorem submit_source_route_always_redirects request (w : World D) :
  let result := submit_source_route compile_program request w in
  ∃ url status,
    result.1 = Returned (RedirectResponse url status)
    ∧ ((status = 303
        ∧ ∃ program_id, get "id" (form request) = Some (FStr program_id)
                        ∧ url = "/program?id=" +:+ program_id)
       ∨ (status = 307
          ∧ db result.2 = db w
          ∧ ∃ message,
              url = "/upload_source?id=" +:+ fmt (get "id" (form request))
                    +:+ "&message=" +:+ message)).
Proof.
  cbv zeta. unfold submit_source_route.
  destruct (get "id" (form request)) as [[program_id|shown]|];
    [|eexists _, _; split; [reflexivity|right; eauto] ..].
  rewrite bind_query.
  destruct (get_program (db w) program_id) as [on_chain|];
    [|eexists _, _; split; [reflexivity|right; eauto]].
  destruct (get "source" (form request)) as [[[|c source]|shown]|];
    [eexists _, _; split; [reflexivity|right; eauto]|
    |eexists _, _; split; [reflexivity|right; eauto] ..].
  destruct (negb _); [eexists _, _; split; [reflexivity|right; eauto]|].
  destruct (collect_import_data _ _) as [import_data|];
    [|eexists _, _; split; [reflexivity|right; eauto]].
  rewrite bind_extern.
  destruct (compile_program _ _ _) as [compiled|e].
  - destruct (decide (on_chain ≠ compiled)).
    + eexists _, _; split; [reflexivity|right; eauto].
    + rewrite bind_update, run_ret.
      eexists _, _; split; [reflexivity|left; eauto].
  - eexists _, _; split; [reflexivity|right; eauto].
Qed.

End SubmitEdges.

Lemma submit_without_program_id_witness :
  submit_source_route Demo.compile Tour.with_file Demo.unverified =
    (Returned
       (RedirectResponse
          ("/upload_source?id=" +:+ fmt (get "id" (form Tour.with_file))
           +:+ "&message=Missing program id") 307),
     Demo.unverified).
Proof.
  apply (submit_without_program_id Demo.compile Tour.with_file
           Demo.unverified).
  intros program_id. discriminate.
Defined.

Lemma submit_for_unknown_program_witness :
  submit_source_route Demo.compile
    (Demo.submission_for "nowhere.aleo" Demo.hello_source "credits" "stub")
    Demo.unverified =
    (Returned (back (Some (FStr "nowhere.aleo")) "Program not found"),
     mkWorld (db Demo.unverified)
       (calls Demo.unverified ++ [db_get_program "nowhere.aleo"])).
Proof.
  apply (submit_for_unknown_program Demo.compile
           (Demo.submission_for "nowhere.aleo" Demo.hello_source
              "credits" "stub")
           Demo.unverified "nowhere.aleo");
    reflexivity.
Defined.

Lemma submit_without_source_witness :
  submit_source_route Demo.compile (Demo.submission EmptyString)
    Demo.unverified =
    (Returned (back (Some (FStr "hello.aleo")) "Missing source code"),
     mkWorld (db Demo.unverified)
       (calls Demo.unverified ++ [db_get_program "hello.aleo"])).
Proof.
  apply (submit_without_source Demo.compile (Demo.submission EmptyString)
           Demo.unverified "hello.aleo" Demo.hello_bytes).
  - reflexivity.
  - reflexivity.
  - intros c source. discriminate.
Defined.

Lemma submit_with_invalid_imports_witness :
  submit_source_route Demo.compile
    (Tour.form_of [("id", FStr "hello.aleo"); ("source", FStr "x");
                   ("imports[]", FStr "credits")])
    Demo.unverified =
    (Returned (back (Some (FStr "hello.aleo")) "Invalid form data"),
     mkWorld (db Demo.unverified)
       (calls Demo.unverified ++ [db_get_program "hello.aleo"])).
Proof.
  apply (submit_with_invalid_imports Demo.compile
           (Tour.form_of [("id", FStr "hello.aleo"); ("source", FStr "x");
                          ("imports[]", FStr "credits")])
           Demo.unverified "hello.aleo" Demo.hello_bytes "x" EmptyString).
  - reflexivity.
  - reflexivity.
  - reflexivity.
  - left. discriminate.
Defined.

Lemma acceptance_requires_equal_bytecode_witness :
  ∃ program_id source import_data on_chain,
    get "id" (form (Demo.submission Demo.hello_source))
    = Some (FStr program_id)
    ∧ get "source" (form (Demo.submission Demo.hello_source))
      = Some (FStr source)
    ∧ get_program (db Demo.unverified) program_id = Some on_chain
    ∧ Demo.compile source (Py.split_head "." program_id) import_data
      = Bytecode on_chain
    ∧ db (mkWorld
            (store_program_leo_source_code (db Demo.unverified)
               "hello.aleo" Demo.hello_source)
            [db_get_program "hello.aleo";
             rust_compile_program Demo.hello_source "hello"
               [("credits", "stub")];
             db_store_program_leo_source_code "hello.aleo" Demo.hello_source])
      = store_program_leo_source_code (db Demo.unverified) program_id source.
Proof.
  apply (acceptance_requires_equal_bytecode Demo.compile
           (Demo.submission Demo.hello_source) Demo.unverified
           "/program?id=hello.aleo").
  reflexivity.
Defined.

(** ** Edges of [upload_source_route] *)

Section UploadEdges.
Context {D SyncInfo : Type} `{!ProgramDb D}.
Variable Program_load : Py.bytes → Aleo.Program.
Variable out_of_sync_check : D → SyncInfo.

Lemma upload_source_route_returns request (w : World D) program_id program :
  get "id" (query_params request) = Some program_id →
  get_program (db w) program_id = Some program →
  ∃ ctx, (upload_source_route Program_load out_of_sync_check request w).1
         = Returned ctx.
Proof.
  intros Hid Hchain.
  destruct (get_program_leo_source_code (db w) program_id) as [leo|] eqn:Hleo.
  - rewrite (upload_source_route_verified _ _ _ _ _ _ _ Hid Hchain Hleo).
    eauto.
  - rewrite (upload_source_route_resolves _ _ _ _ _ _ Hid Hchain Hleo).
    eauto.
Qed.

(** X9: the upload page is refused in two cases only: without an [id]
    parameter (400), and for an id the chain does not know (404). *)
Theorem upload_source_route_raises_exactly request (w : World D) e :
  (upload_source_route Program_load out_of_sync_check request w).1 = Raised e
  ↔ (get "id" (query_params request) = None
     ∧ e = {| status_code := 400; detail := "Missing program id" |})
    ∨ (∃ program_id,
         get "id" (query_params request) = Some program_id
         ∧ get_program (db w) program_id = None
         ∧ e = {| status_code := 404; detail := "Program not found" |}).
Proof.
  destruct (get "id" (query_params request)) as [program_id|] eqn:Hid.
  - destruct (get_program (db w) program_id) as [program|] eqn:Hchain.
    + destruct (upload_source_route_returns _ _ _ _ Hid Hchain) as [ctx ->].
      split; [discriminate|].
      intros [[[=] _]|(pid & [= <-] & Hnone & _)]. congruence.
    + unfold upload_source_route. rewrite Hid, bind_query, Hchain. cbn.
      split.
      * intros [= <-]. right. eauto.
      * intros [[[=] _]|(pid & _ & _ & ->)]. reflexivity.
  - unfold upload_source_route. rewrite Hid. cbn. split.
    + intros [= <-]. left. eauto.
    + intros [[_ ->]|(pid & [=] & _)]. reflexivity.
Qed.

(** X10: for a program that already has a verified source the page lists no
    import at all, whatever the program declares, and asks the store
    about the program only. *)
Theorem verified_program_lists_no_imports request (w : World D) program_id
    program leo :
  get "id" (query_params request) = Some program_id →
  get_program (db w) program_id = Some program →
  get_program_leo_source_code (db w) program_id = Some leo →
  ∃ ctx,
    upload_source_route Program_load out_of_sync_check request w =
      (Returned (ctx, cache_headers),
       mkWorld (db w)
         (calls w ++ [db_get_program program_id;
                      db_get_program_leo_source_code program_id;
                      utils_out_of_sync_check]))
    ∧ upload_has_leo_source ctx = true
    ∧ upload_imports ctx = []
    ∧ upload_import_programs ctx = [].
Proof.
  intros Hid Hchain Hleo.
  rewrite (upload_source_route_verified _ _ _ _ _ _ _ Hid Hchain Hleo).
  eexists. split; [reflexivity|]. repeat split.
Qed.

Lemma import_calls_count todo :
  length (import_calls todo) =
  length (filter (λ i, Aleo.str (Aleo.program_id i) ≠ "credits.aleo") todo).
Proof.
  unfold import_calls, Aleo.differs.
  induction todo as [|i todo IH]; [reflexivity|].
  cbn [omap list_omap]. rewrite filter_cons.
  destruct (decide (Aleo.str (Aleo.program_id i) ≠ "credits.aleo")) as [Hd|Hd].
  - rewrite bool_decide_eq_true_2 by exact Hd. cbn. now rewrite IH.
  - rewrite bool_decide_eq_false_2 by exact Hd. exact IH.
Qed.

(** X11: for a program without a verified source the two lists of the page
    are aligned with the declared imports: same length, and at every
    position the name of the import declared there with the source the
    store holds for it ([None] for [credits.aleo], which is not looked
    up).  The store is asked once per import that is not the built-in. *)
Theorem upload_lists_follow_declaration request (w : World D) program_id
    program :
  get "id" (query_params request) = Some program_id →
  get_program (db w) program_id = Some program →
  get_program_leo_source_code (db w) program_id = None →
  let declared := Aleo.imports (Program_load program) in
  ∃ ctx made,
    upload_source_route Program_load out_of_sync_check request w =
      (Returned (ctx, cache_headers), mkWorld (db w) (calls w ++ made))
    ∧ upload_has_leo_source ctx = false
    ∧ length (upload_imports ctx) = length declared
    ∧ length (upload_import_programs ctx) = length declared
    ∧ (∀ k i, declared !! k = Some i →
         upload_imports ctx !! k = Some (Aleo.name (Aleo.program_id i))
         ∧ upload_import_programs ctx !! k =
             Some (if decide (Aleo.str (Aleo.program_id i) = "credits.aleo")
                   then None
                   else get_program_leo_source_code (db w)
                          (Aleo.str (Aleo.program_id i))))
    ∧ length made =
        (3 + length (filter (λ i, Aleo.str (Aleo.program_id i)
                                   ≠ "credits.aleo") declared))%nat.
Proof.
  intros Hid Hchain Hleo declared.
  rewrite (upload_source_route_resolves _ _ _ _ _ _ Hid Hchain Hleo).
  cbv zeta. fold declared. eexists _, _. split; [reflexivity|].
  cbn [upload_has_leo_source upload_imports upload_import_programs].
  split; [reflexivity|]. rewrite !length_fmap.
  split; [reflexivity|]. split; [reflexivity|]. split.
  - intros k i Hk. rewrite !list_lookup_fmap, Hk. cbn.
    split; [reflexivity|]. unfold import_source, Aleo.differs.
    destruct (decide (Aleo.str (Aleo.program_id i) = "credits.aleo")) as [He|He].
    + now rewrite bool_decide_eq_false_2 by (intros Hn; now apply Hn).
    + now rewrite bool_decide_eq_true_2 by exact He.
  - cbn [length app]. rewrite length_app, import_calls_count. cbn. lia.
Qed.

End UploadEdges.

Lemma verified_program_lists_no_imports_witness :
  ∃ ctx,
    upload_source_route Demo.load (λ _ : ChainDb, ())
      (Demo.upload_page "hello.aleo") Demo.verified =
      (Returned (ctx, cache_headers),
       mkWorld (db Demo.verified)
         (calls Demo.verified ++ [db_get_program "hello.aleo";
                                  db_get_program_leo_source_code "hello.aleo";
                                  utils_out_of_sync_check]))
    ∧ upload_has_leo_source ctx = true
    ∧ upload_imports ctx = []
    ∧ upload_import_programs ctx = [].
Proof.
  apply (verified_program_lists_no_imports Demo.load (λ _ : ChainDb, ())
           (Demo.upload_page "hello.aleo") Demo.verified "hello.aleo"
           Demo.hello_bytes Demo.hello_source);
    reflexivity.
Defined.

Lemma upload_lists_follow_declaration_witness :
  let declared := Aleo.imports (Demo.load Demo.main_bytes) in
  ∃ ctx made,
    upload_source_route Demo.load (λ _ : ChainDb, ())
      (Demo.upload_page "main.aleo") Demo.verified =
      (Returned (ctx, cache_headers),
       mkWorld (db Demo.verified) (calls Demo.verified ++ made))
    ∧ upload_has_leo_source ctx = false
    ∧ length (upload_imports ctx) = length declared
    ∧ length (upload_import_programs ctx) = length declared
    ∧ (∀ k i, declared !! k = Some i →
         upload_imports ctx !! k = Some (Aleo.name (Aleo.program_id i))
         ∧ upload_import_programs ctx !! k =
             Some (if decide (Aleo.str (Aleo.program_id i) = "credits.aleo")
                   then None
                   else get_program_leo_source_code (db Demo.verified)
                          (Aleo.str (Aleo.program_id i))))
    ∧ length made =
        (3 + length (filter (λ i, Aleo.str (Aleo.program_id i)
                                   ≠ "credits.aleo") declared))%nat.
Proof.
  apply (upload_lists_follow_declaration Demo.load (λ _ : ChainDb, ())
           (Demo.upload_page "main.aleo") Demo.verified "main.aleo"
           Demo.main_bytes);
    reflexivity.
Defined.

(** ** Edges of the catalogue routes *)

Section CatalogueEdges.
Context {D Row SyncInfo : Type} `{!CatalogDb D Row}.
Variable out_of_sync_check : D → SyncInfo.

(** X12: the listing is refused with "Invalid page" (400), and with nothing
    else, exactly when the page number is not the text of an integer or
    its offset [50 * (page - 1)] is negative or beyond the number of
    programs counted under the requested filter. *)
Theorem programs_route_raises_exactly request (w : World D) e :
  (programs_route out_of_sync_check request w).1 = Raised e
  ↔ e = invalid_page
    ∧ (requested_page request = None
       ∨ ∃ page,
           requested_page request = Some page
           ∧ ¬ (0 ≤ 50 * (page - 1)
                ≤ get_program_count (db w) (requested_no_helloworld request))).
Proof.
  unfold programs_route.
  destruct (requested_page request) as [page|].
  - rewrite bind_query, page_guard. cbn [db].
    destruct (bool_decide_reflect
                (0 ≤ 50 * (page - 1)
                 ≤ get_program_count (db w) (requested_no_helloworld request)))
      as [Hin|Hout]; cbn [negb].
    + rewrite !bind_query, run_ret. split; [discriminate|].
      intros [_ [[=]|(page' & [= <-] & Hout)]]. contradiction.
    + split.
      * intros [= <-]. split; [reflexivity|]. right. eauto.
      * now intros [-> _].
  - split.
    + intros [= <-]. auto.
    + now intros [-> _].
Qed.

(** X13: the similarity page is refused in four cases only, checked in this
    order: page number not an integer (400, before the id is looked at),
    no [id] parameter (400), no feature hash for the id (404), offset
    negative or beyond the similar count (400). *)
Theorem similar_programs_route_raises_exactly request (w : World D) e :
  (similar_programs_route out_of_sync_check request w).1 = Raised e
  ↔ (requested_page request = None ∧ e = invalid_page)
    ∨ ∃ page,
        requested_page request = Some page
        ∧ ((get "id" (query_params request) = None
            ∧ e = {| status_code := 400; detail := "Missing program id" |})
           ∨ ∃ program_id,
               get "id" (query_params request) = Some program_id
               ∧ ((get_program_feature_hash (db w) program_id = None
                   ∧ e = {| status_code := 404;
                            detail := "Program not found" |})
                  ∨ (is_Some (get_program_feature_hash (db w) program_id)
                     ∧ ¬ (0 ≤ 50 * (page - 1)
                          ≤ get_program_similar_count (db w) program_id)
                     ∧ e = invalid_page))).
Proof.
  unfold similar_programs_route.
  destruct (requested_page request) as [page|]; cycle 1.
  { split.
    - intros [= <-]. auto.
    - intros [[_ ->]|(page & [=] & _)]. reflexivity. }
  destruct (get "id" (query_params request)) as [program_id|]; cycle 1.
  { split.
    - intros [= <-]. right. exists page. split; [reflexivity|].
      left. split; reflexivity.
    - intros [[[=] _]|(page' & _ & [[_ ->]|(pid & [=] & _)])]. reflexivity. }
  rewrite bind_query. cbv beta.
  destruct (get_program_feature_hash (db w) program_id) as [feature_hash|]
    eqn:Hhash; cycle 1.
  { split.
    - intros [= <-]. right. exists page. split; [reflexivity|].
      right. exists program_id. split; [reflexivity|].
      left. split; [exact Hhash | reflexivity].
    - intros [[[=] _]|(page' & _ & [[[=] _]|(pid & [= <-] & Hcase)])].
      destruct Hcase as [[_ ->]|([? Hsome] & _)]; [reflexivity|congruence]. }
  rewrite bind_query, page_guard. cbn [db].
  destruct (bool_decide_reflect
              (0 ≤ 50 * (page - 1)
               ≤ get_program_similar_count (db w) program_id))
    as [Hin|Hout]; cbn [negb].
  - rewrite !bind_query, run_ret. split; [discriminate|].
    intros [[[=] _]|(page' & [= <-] & [[[=] _]|(pid & [= <-] & Hcase)])].
    destruct Hcase as [[Hnone _]|(_ & Hout & _)]; [congruence|contradiction].
  - split.
    + intros [= <-]. right. exists page. split; [reflexivity|].
      right. exists program_id. split; [reflexivity|]. right.
      split; [rewrite Hhash; eauto|]. split; [exact Hout | reflexivity].
    + intros [[[=] _]|(page' & _ & [[[=] _]|(pid & [= <-] & Hcase)])].
      destruct Hcase as [[Hnone _]|(_ & _ & ->)]; [congruence|reflexivity].
Qed.

(** X14: a served listing page: the page number lies between 1 and the
    number of pages, which is one more than the count divided by 50;
    the rows are those the store gives for the window [50 * (page - 1),
    50 * page), followed on every page by the built-in programs. *)
Theorem programs_route_page_window request (w : World D) ctx headers :
  (programs_route out_of_sync_check request w).1 = Returned (ctx, headers) →
  let no_helloworld := programs_no_helloworld ctx in
  let page := programs_page ctx in
  requested_page request = Some page
  ∧ no_helloworld = requested_no_helloworld request
  ∧ programs_total_pages ctx
    = get_program_count (db w) no_helloworld `div` 50 + 1
  ∧ 1 ≤ page ≤ programs_total_pages ctx
  ∧ programs_programs ctx
    = (get_programs (db w) (50 * (page - 1)) (50 * page) no_helloworld
       ++ get_builtin_programs (db w))%list
  ∧ headers = cache_headers.
Proof.
  unfold programs_route.
  destruct (requested_page request) as [page|]; [|discriminate].
  rewrite bind_query. cbn [db].
  destruct (Z.ltb_spec page 1); [discriminate|].
  destruct (Z.ltb_spec
              (get_program_count (db w) (requested_no_helloworld request)
               `div` 50 + 1) page); [discriminate|].
  cbn [orb]. rewrite !bind_query, run_ret. cbn [db fst].
  intros [= <- <-]. cbn.
  replace (50 * (page - 1) + 50) with (50 * page) by lia.
  repeat split; lia || reflexivity.
Qed.

(** X15: neither catalogue route changes the database, served or refused. *)
Theorem catalogue_routes_read_only request (w : World D) :
  db (programs_route out_of_sync_check request w).2 = db w
  ∧ db (similar_programs_route out_of_sync_check request w).2 = db w.
Proof.
  split.
  - unfold programs_route.
    destruct (requested_page request) as [page|]; [|reflexivity].
    rewrite bind_query.
    destruct (_ || _); [reflexivity|].
    now rewrite !bind_query, run_ret.
  - unfold similar_programs_route.
    destruct (requested_page request) as [page|]; [|reflexivity].
    destruct (get "id" (query_params request)) as [program_id|];
      [|reflexivity].
    rewrite bind_query.
    destruct (get_program_feature_hash (db w) program_id) as [feature_hash|];
      [|reflexivity].
    rewrite bind_query.
    destruct (_ || _); [reflexivity|].
    now rewrite !bind_query, run_ret.
Qed.

End CatalogueEdges.

Lemma programs_route_page_window_witness :
  let request := Demo.listing [("p", "3"); ("no_helloworld", "1")] in
  let w := mkWorld (db Demo.unverified) [] in
  requested_page request = Some 3
  ∧ true = requested_no_helloworld request
  ∧ 3 = @get_program_count ChainDb string Tour.catalog (db w) true `div` 50 + 1
  ∧ 1 ≤ 3 ≤ 3
  ∧ ["hello.aleo"; "credits.aleo"]
    = (@get_programs ChainDb string Tour.catalog (db w)
         (50 * (3 - 1)) (50 * 3) true
       ++ @get_builtin_programs ChainDb string Tour.catalog (db w))%list
  ∧ cache_headers = cache_headers.
Proof.
  apply (@programs_route_page_window ChainDb string () Tour.catalog
           (λ _, ()) (Demo.listing [("p", "3"); ("no_helloworld", "1")])
           (mkWorld (db Demo.unverified) [])
           (mkProgramsContext ["hello.aleo"; "credits.aleo"] 3 3 true ())
           cache_headers).
  reflexivity.
Defined.

(** ** Texts cut at a separator *)

(** X16: [s.split(sep)[0]], as used for the name handed to the compiler:
    the head holds no separator, and the text is the head alone or the
    head, one separator and a rest. *)
Theorem split_head_cuts_at_first_separator sep (s : string) :
  Py.contains sep (Py.split_head sep s) = false
  ∧ (s = Py.split_head sep s
     ∨ ∃ rest, s = Py.split_head sep s +:+ String sep rest).
Proof.
  induction s as [|c s [IHc IHs]]; [split; [reflexivity | now left]|].
  cbn [Py.split_head]. destruct (Ascii.eqb_spec c sep) as [->|Hc].
  - split; [reflexivity|]. right. now exists s.
  - split.
    + cbn. rewrite IHc. now apply Ascii.eqb_neq in Hc as ->.
    + destruct IHs as [IHs|[rest IHs]].
      * left. now rewrite <- IHs.
      * right. exists rest.
        change (String c s
                = String c (Py.split_head sep s +:+ String sep rest)).
        now rewrite <- IHs.
Qed.

(** X17: [s.split(sep, 1)[-1]], as used for the function signatures of the
    program page: a text without the separator is kept whole, and of
    a text with separators what follows the first one is kept. *)
Theorem split_last_keeps_what_follows sep (s : string) :
  (Py.contains sep s = false → split_last sep s = s)
  ∧ (∀ head rest, Py.contains sep head = false →
       s = head +:+ String sep rest → split_last sep s = rest).
Proof.
  split.
  - intros Hnone. unfold split_last. now rewrite Hnone.
  - intros head rest Hhead ->. unfold split_last.
    assert (Py.contains sep (head +:+ String sep rest) = true
            ∧ after_first sep (head +:+ String sep rest) = rest) as [-> ->];
      [|reflexivity].
    induction head as [|c head IH].
    + change (Py.contains sep (String sep rest) = true
              ∧ after_first sep (String sep rest) = rest).
      cbn [Py.contains after_first]. now rewrite Ascii.eqb_refl.
    + cbn [Py.contains] in Hhead.
      apply orb_false_iff in Hhead as [Hc Hhead].
      destruct (IH Hhead) as [IHc IHa].
      change (Py.contains sep (String c (head +:+ String sep rest)) = true
              ∧ after_first sep (String c (head +:+ String sep rest)) = rest).
      cbn [Py.contains after_first]. now rewrite Hc, IHc, IHa.
Qed.

(** ** The program page *)

(** The accepted deploy of [program_id] that a transaction holds, if it
    is one. *)
Lemma find_deploy_cons program_id ct rest :
  find_deploy program_id (ct :: rest) =
    match ct with
    | Chain.AcceptedDeploy (Chain.DeployTransaction tx) =>
        if decide (Aleo.str (Aleo.id (Chain.program (Chain.deployment tx)))
                   = program_id)
        then Some tx else find_deploy program_id rest
    | _ => find_deploy program_id rest
    end.
Proof. destruct ct as [[]|[]|[]|[]]; reflexivity. Qed.

(** X18: the loop over the transactions of a block picks the first accepted
    deploy of the requested program: transactions of other kinds,
    rejected deploys and deploys of other programs before it are passed
    over, and what comes after it is not looked at. *)
Theorem find_deploy_picks_first program_id transactions tx :
  find_deploy program_id transactions = Some tx
  ↔ ∃ before after,
      transactions =
        (before ++ Chain.AcceptedDeploy (Chain.DeployTransaction tx) :: after)%list
      ∧ Aleo.str (Aleo.id (Chain.program (Chain.deployment tx))) = program_id
      ∧ ∀ other,
          Chain.AcceptedDeploy (Chain.DeployTransaction other) ∈ before →
          Aleo.str (Aleo.id (Chain.program (Chain.deployment other)))
          ≠ program_id.
Proof.
  induction transactions as [|ct rest IH].
  - split; [discriminate|]. intros ([|??] & ? & [=] & _).
  - rewrite find_deploy_cons. split.
    + intros Hfound.
      assert (find_deploy program_id rest = Some tx →
              (∀ other, ct = Chain.AcceptedDeploy (Chain.DeployTransaction other)
                 → Aleo.str (Aleo.id (Chain.program (Chain.deployment other)))
                   ≠ program_id) →
              ∃ before after,
                ct :: rest =
                  (before ++ Chain.AcceptedDeploy (Chain.DeployTransaction tx)
                   :: after)%list
                ∧ Aleo.str (Aleo.id (Chain.program (Chain.deployment tx)))
                  = program_id
                ∧ ∀ other,
                    Chain.AcceptedDeploy (Chain.DeployTransaction other)
                    ∈ before →
                    Aleo.str (Aleo.id (Chain.program (Chain.deployment other)))
                    ≠ program_id) as Hlater.
      { intros (before & after & -> & Hid & Hnone)%IH Hct.
        exists (ct :: before), after. split; [reflexivity|].
        split; [exact Hid|]. intros other [Heq|Hin]%elem_of_cons.
        - apply Hct. now symmetry.
        - now apply Hnone. }
      destruct ct as [[dtx| |]|[]|[]|[]];
        try (apply Hlater; [exact Hfound | discriminate]).
      destruct (decide _) as [Hid|Hid].
      * injection Hfound as ->. exists [], rest.
        split; [reflexivity|]. split; [exact Hid|].
        intros other Hin. now apply elem_of_nil in Hin.
      * apply Hlater; [exact Hfound|].
        intros other Heq. injection Heq as <-. exact Hid.
    + intros ([|first before] & after & Heq & Hid & Hnone).
      * injection Heq as -> ->. now rewrite decide_True.
      * injection Heq as -> ->.
        assert (find_deploy program_id
                  (before ++ Chain.AcceptedDeploy (Chain.DeployTransaction tx)
                   :: after)%list = Some tx) as Hrest.
        { apply IH. exists before, after. split; [reflexivity|].
          split; [exact Hid|]. intros other Hin. apply Hnone.
          now apply list_elem_of_further. }
        destruct first as [[dtx| |]|[]|[]|[]]; try exact Hrest.
        rewrite decide_False; [exact Hrest|].
        apply Hnone, list_elem_of_here.
Qed.

Lemma find_deploy_none program_id transactions :
  find_deploy program_id transactions = None
  ↔ ∀ other,
      Chain.AcceptedDeploy (Chain.DeployTransaction other) ∈ transactions →
      Aleo.str (Aleo.id (Chain.program (Chain.deployment other))) ≠ program_id.
Proof.
  induction transactions as [|ct rest IH].
  - split; [|reflexivity]. intros _ other Hin. now apply elem_of_nil in Hin.
  - rewrite find_deploy_cons. split.
    + intros Hnone other [Hct|Hin]%elem_of_cons.
      * subst ct. destruct (decide _); [discriminate|assumption].
      * apply IH; [|exact Hin].
        destruct ct as [[dtx| |]|[]|[]|[]]; try exact Hnone.
        destruct (decide _); [discriminate|exact Hnone].
    + intros Hall.
      assert (find_deploy program_id rest = None) as Hrest.
      { apply IH. intros other Hin. apply Hall.
        now apply list_elem_of_further. }
      destruct ct as [[dtx| |]|[]|[]|[]]; try exact Hrest.
      rewrite decide_False; [exact Hrest|].
      apply Hall, list_elem_of_here.
Qed.

Section ProgramPageFacts.
Context {D Row Call SyncInfo : Type}.
Context `{!ProgramDb D} `{!CatalogDb D Row} `{!PageDb D Call} `{!ProgramParts}.
Variable Program_load : Py.bytes → Aleo.Program.
Variable disassemble_program : Aleo.Program → string.
Variable function_signature : D → string → string → string.
Variable out_of_sync_check : D → SyncInfo.

Lemma program_route_located request d program_id program transaction :
  get "id" (query_params request) = Some program_id →
  locate_program Program_load program_id d = Returned (program, transaction) →
  ∃ ctx,
    program_route (Row:=Row) Program_load disassemble_program
      function_signature out_of_sync_check request d = Returned (ctx, cache_headers)
    ∧ page_program_id ctx = Aleo.str (Aleo.id program)
    ∧ page_imports ctx
      = (λ i, Aleo.str (Aleo.program_id i)) <$> Aleo.imports program
    ∧ page_transaction_id ctx = Chain.id <$> transaction
    ∧ page_owner ctx = (λ tx, Chain.address (Chain.owner tx)) <$> transaction
    ∧ page_signature ctx
      = (λ tx, Chain.signature (Chain.owner tx)) <$> transaction
    ∧ page_has_leo_source ctx
      = bool_decide (get_program_leo_source_code d program_id ≠ None)
    ∧ page_source ctx
      = default (disassemble_program program)
          (get_program_leo_source_code d program_id)
    ∧ page_functions ctx
      = (λ f, split_last "/"
                (function_signature d (Aleo.str (Aleo.id program)) f))
          <$> functions program.
Proof.
  intros Hid Hlocated. unfold program_route. rewrite Hid, Hlocated.
  eexists. split; [reflexivity|]. cbn.
  repeat split.
Qed.

(** X19: the program page is refused in three cases only: without an [id]
    parameter (400); when a block is on record for the id but holds no
    accepted deploy of that program (550), whatever bytecode the chain
    index has; and when no block is on record and the bytecode is
    missing or empty (404). *)
Theorem program_route_raises_exactly request (d : D) e :
  program_route (Row:=Row) Program_load disassemble_program
      function_signature out_of_sync_check request d = Raised e
  ↔ (get "id" (query_params request) = None
     ∧ e = {| status_code := 400; detail := "Missing program id" |})
    ∨ ∃ program_id,
        get "id" (query_params request) = Some program_id
        ∧ ((∃ block,
              get_block_by_program_id d program_id = Some block
              ∧ (∀ other,
                   Chain.AcceptedDeploy (Chain.DeployTransaction other)
                   ∈ Chain.transactions block →
                   Aleo.str (Aleo.id (Chain.program (Chain.deployment other)))
                   ≠ program_id)
              ∧ e = {| status_code := 550;
                       detail := "Deploy transaction not found" |})
           ∨ (get_block_by_program_id d program_id = None
              ∧ (get_program d program_id = None
                 ∨ get_program d program_id = Some [])
              ∧ e = {| status_code := 404; detail := "Program not found" |})).
Proof.
  destruct (get "id" (query_params request)) as [program_id|] eqn:Hid;
    cycle 1.
  { unfold program_route. rewrite Hid. split.
    - intros [= <-]. auto.
    - intros [[_ ->]|(pid & [=] & _)]. reflexivity. }
  destruct (locate_program Program_load program_id d)
    as [[program transaction]|e'] eqn:Hlocated.
  - destruct (program_route_located _ _ _ _ _ Hid Hlocated) as (ctx & -> & _).
    split; [discriminate|].
    intros [[[=] _]|(pid & [= <-] & Hcase)]. exfalso.
    unfold locate_program in Hlocated.
    destruct Hcase as [(block & Hblock & Hnone & _)|(Hblock & Hbytes & _)];
      rewrite Hblock in Hlocated.
    + apply find_deploy_none in Hnone. now rewrite Hnone in Hlocated.
    + destruct Hbytes as [Hbytes|Hbytes]; now rewrite Hbytes in Hlocated.
  - unfold program_route. rewrite Hid, Hlocated.
    unfold locate_program in Hlocated.
    destruct (get_block_by_program_id d program_id) as [block|] eqn:Hblock.
    + destruct (find_deploy program_id (Chain.transactions block))
        as [tx|] eqn:Hfound; [discriminate|].
      injection Hlocated as <-. split.
      * intros [= <-]. right. exists program_id. split; [reflexivity|].
        left. exists block. split; [exact Hblock|].
        split; [now apply find_deploy_none | reflexivity].
      * intros [[[=] _]|(pid & [= <-] & [(b & _ & _ & ->)|(Hno & _)])];
          [reflexivity | congruence].
    + assert (e' = {| status_code := 404; detail := "Program not found" |}
              ∧ (get_program d program_id = None
                 ∨ get_program d program_id = Some [])) as [-> Hbytes].
      { destruct (get_program d program_id) as [[|b bytes]|];
          [injection Hlocated as <-; auto | discriminate
          | injection Hlocated as <-; auto]. }
      split.
      * intros [= <-]. right. exists program_id. split; [reflexivity|].
        right. split; [exact Hblock|]. split; [exact Hbytes | reflexivity].
      * intros [[[=] _]|(pid & [= <-] & [(b & Hb & _)|(_ & _ & ->)])];
          [congruence | reflexivity].
Qed.

(** X20: when a block is on record for the id, the page shows the program
    of the first accepted deploy of that id in the block, under the
    requested id, with the id, owner and signature of that transaction;
    the bytecode of the chain index is not read for it. *)
Theorem program_page_of_deployed_program request (d : D) program_id block
    before tx after :
  get "id" (query_params request) = Some program_id →
  get_block_by_program_id d program_id = Some block →
  Chain.transactions block =
    (before ++ Chain.AcceptedDeploy (Chain.DeployTransaction tx) :: after)%list →
  Aleo.str (Aleo.id (Chain.program (Chain.deployment tx))) = program_id →
  (∀ other, Chain.AcceptedDeploy (Chain.DeployTransaction other) ∈ before →
     Aleo.str (Aleo.id (Chain.program (Chain.deployment other)))
     ≠ program_id) →
  ∃ ctx,
    program_route (Row:=Row) Program_load disassemble_program
      function_signature out_of_sync_check request d = Returned (ctx, cache_headers)
    ∧ page_program_id ctx = program_id
    ∧ page_imports ctx
      = (λ i, Aleo.str (Aleo.program_id i))
          <$> Aleo.imports (Chain.program (Chain.deployment tx))
    ∧ page_transaction_id ctx = Some (Chain.id tx)
    ∧ page_owner ctx = Some (Chain.address (Chain.owner tx))
    ∧ page_signature ctx = Some (Chain.signature (Chain.owner tx)).
Proof.
  intros Hid Hblock Htransactions Hdeploy Hfirst.
  assert (find_deploy program_id (Chain.transactions block) = Some tx)
    as Hfound by (apply find_deploy_picks_first; eauto).
  assert (locate_program Program_load program_id d
          = Returned (Chain.program (Chain.deployment tx), Some tx))
    as Hlocated by (unfold locate_program; now rewrite Hblock, Hfound).
  destruct (program_route_located _ _ _ _ _ Hid Hlocated)
    as (ctx & Hroute & Hpid & Himports & Htx & Howner & Hsig & _).
  exists ctx. rewrite Hdeploy in Hpid. auto 10.
Qed.

(** X21: when no block is on record for the id, the page shows the program
    parsed from the bytecode of the chain index, under the id that the
    parsed program carries, and without transaction, owner or
    signature. *)
Theorem program_page_of_loaded_program request (d : D) program_id
    program_bytes :
  get "id" (query_params request) = Some program_id →
  get_block_by_program_id d program_id = None →
  get_program d program_id = Some program_bytes →
  program_bytes ≠ [] →
  ∃ ctx,
    program_route (Row:=Row) Program_load disassemble_program
      function_signature out_of_sync_check request d = Returned (ctx, cache_headers)
    ∧ page_program_id ctx = Aleo.str (Aleo.id (Program_load program_bytes))
    ∧ page_imports ctx
      = (λ i, Aleo.str (Aleo.program_id i))
          <$> Aleo.imports (Program_load program_bytes)
    ∧ page_transaction_id ctx = None
    ∧ page_owner ctx = None
    ∧ page_signature ctx = None.
Proof.
  intros Hid Hblock Hbytes Hnonempty.
  assert (locate_program Program_load program_id d
          = Returned (Program_load program_bytes, None)) as Hlocated.
  { unfold locate_program. rewrite Hblock, Hbytes.
    now destruct program_bytes. }
  destruct (program_route_located _ _ _ _ _ Hid Hlocated)
    as (ctx & Hroute & Hpid & Himports & Htx & Howner & Hsig & _).
  exists ctx. auto 10.
Qed.


End ProgramPageFacts.

Lemma program_page_of_deployed_program_witness :
  ∃ ctx,
    @program_route ChainDb string string () chain_program_db Tour.catalog
      Tour.pages Tour.parts Demo.load Tour.disassemble Tour.signature
      (λ _, ()) (Tour.page "hello.aleo") (db Demo.unverified)
    = Returned (ctx, cache_headers)
    ∧ page_program_id ctx = "hello.aleo"
    ∧ page_imports ctx
      = (λ i, Aleo.str (Aleo.program_id i))
          <$> Aleo.imports
                (Chain.program (Chain.deployment (Tour.deploy "at1first" "hello")))
    ∧ page_transaction_id ctx = Some (Chain.id (Tour.deploy "at1first" "hello"))
    ∧ page_owner ctx
      = Some (Chain.address (Chain.owner (Tour.deploy "at1first" "hello")))
    ∧ page_signature ctx
      = Some (Chain.signature (Chain.owner (Tour.deploy "at1first" "hello"))).
Proof.
  apply (@program_page_of_deployed_program ChainDb string string ()
           chain_program_db Tour.catalog Tour.pages Tour.parts Demo.load
           Tour.disassemble Tour.signature (λ _, ())
           (Tour.page "hello.aleo") (db Demo.unverified) "hello.aleo"
           Tour.block
           [Chain.AcceptedExecute (Chain.ExecuteTransaction "at1exec");
            Chain.RejectedDeploy
              (Chain.DeployTransaction (Tour.deploy "at1rejected" "hello"));
            Chain.AcceptedDeploy
              (Chain.DeployTransaction (Tour.deploy "at1other" "other"))]
           (Tour.deploy "at1first" "hello")
           [Chain.AcceptedDeploy
              (Chain.DeployTransaction (Tour.deploy "at1second" "hello"))]).
  - reflexivity.
  - reflexivity.
  - reflexivity.
  - reflexivity.
  - intros other Hin.
    apply elem_of_cons in Hin as [Heq|Hin]; [discriminate|].
    apply elem_of_cons in Hin as [Heq|Hin]; [discriminate|].
    apply elem_of_cons in Hin as [Heq|Hin];
      [injection Heq as ->; discriminate|].
    now apply elem_of_nil in Hin.
Defined.

Lemma program_page_of_loaded_program_witness :
  ∃ ctx,
    @program_route ChainDb string string () chain_program_db Tour.catalog
      Tour.pages Tour.parts Demo.load Tour.disassemble Tour.signature
      (λ _, ()) (Tour.page "wallet.aleo") (db Demo.unverified)
    = Returned (ctx, cache_headers)
    ∧ page_program_id ctx = Aleo.str (Aleo.id (Demo.load Demo.wallet_bytes))
    ∧ page_imports ctx
      = (λ i, Aleo.str (Aleo.program_id i))
          <$> Aleo.imports (Demo.load Demo.wallet_bytes)
    ∧ page_transaction_id ctx = None
    ∧ page_owner ctx = None
    ∧ page_signature ctx = None.
Proof.
  apply (@program_page_of_loaded_program ChainDb string string ()
           chain_program_db Tour.catalog Tour.pages Tour.parts Demo.load
           Tour.disassemble Tour.signature (λ _, ())
           (Tour.page "wallet.aleo") (db Demo.unverified) "wallet.aleo"
           Demo.wallet_bytes).
  - reflexivity.
  - reflexivity.
  - reflexivity.
  - discriminate.
Defined.


Example program_route_samples :
  let route request d :=
    @program_route ChainDb string string () chain_program_db Tour.catalog
      Tour.pages Tour.parts Demo.load Tour.disassemble Tour.signature
      (λ _, ()) request d in
  route Tour.no_id (db Demo.unverified)
  = Raised {| status_code := 400; detail := "Missing program id" |}
  ∧ route (Tour.page "ghost.aleo") (db Demo.unverified)
    = Raised {| status_code := 550; detail := "Deploy transaction not found" |}
  ∧ route (Tour.page "nowhere.aleo") (db Demo.unverified)
    = Raised {| status_code := 404; detail := "Program not found" |}
  ∧ (λ r, match r with
          | Returned (ctx, _) =>
              Some (page_functions ctx, page_source ctx,
                    page_has_leo_source ctx)
          | Raised _ => None
          end)
      (route (Tour.page "wallet.aleo") (db Demo.unverified))
    = Some (["main(u32) -> u32"; "mint(u32) -> u32"],
            "program wallet.aleo;", false).
Proof. cbv zeta. repeat split; vm_compute; reflexivity. Qed.
